(** * Kids Story Generator: story engines, narration, illustration and
    video assembly of [app/app.py], embedded in Rocq.

    Conventions of the embedding.
    - Python [int] is [Z]; Python [float] seconds and pixel fractions are
      exact rationals [Q] (IEEE rounding is outside the model; [max] and
      [min] only select one of their arguments, so they are exact anyway,
      and what is stated of a quotient is its order against constants, which
      rounding keeps).
    - Python [str] is [string]: the UTF-8 bytes of its code points. Lengths
      and slices count code points; the case mappings of Unicode
      ([str.title], [str.lower]) are taken from the runtime.
    - A function that can raise returns [res]; a function that also touches
      the process state (the global random generator, the file system, the
      log of calls to external programs and to the UI) lives in the monad
      [M], whose state survives a raised exception, as in Python.
    - Third-party libraries (requests, json, Pillow, the TTS engines,
      MoviePy, slugify) are not part of the repository: what they answer is
      supplied by the record [Env]; the parts of their documented behaviour
      that the program relies on are written out where they are used.
      MoviePy is the release line 43 can import, 2.0 or later. *)

From Stdlib Require Import ZArith QArith Qround Qminmax Lqa Lia List String Ascii DecimalString Bool.
From stdpp Require Import gmap strings.
From Equations Require Import Equations.
Import ListNotations.
Local Open Scope string_scope.
Set Warnings "-register-all".

(** ** Exceptions and results *)

(** The exception classes the program can meet; all of them derive from
    Python's [Exception], so [except Exception] catches each one. *)
Inductive exn : Type :=
| RuntimeError (msg : string)
| ValueError (msg : string)
| AttributeError
| TypeError
| IndexError
| KeyError
| ZeroDivisionError
| FileNotFoundError
| OSError (msg : string)
| ConnectionError
| HTTPError
| JSONDecodeError.

Inductive res (A : Type) : Type :=
| Ok (a : A)
| Raise (e : exn).
Arguments Ok {A} a.
Arguments Raise {A} e.

Definition is_ok {A} (r : res A) : bool :=
  match r with Ok _ => true | Raise _ => false end.

(** ** Python values *)

(** Values that [json.loads] / [Response.json] can produce, and therefore
    the values a [Scene] built from a service response can hold. *)
Inductive pyval : Type :=
| PNone
| PBool (b : bool)
| PNum (q : Q)
| PStr (s : string)
| PList (l : list pyval)
| PDict (d : gmap string pyval).

(** [d.get(key, dflt)]: only a dict has [get]. *)
Definition py_get (v : pyval) (key : string) (dflt : pyval) : res pyval :=
  match v with
  | PDict d => Ok (default dflt (d !! key))
  | _ => Raise AttributeError
  end.

(** [for s in v]: the elements a [for] loop (or comprehension) visits.
    A dict yields its keys, a string its characters. *)
Definition py_iter (v : pyval) : res (list pyval) :=
  match v with
  | PList l => Ok l
  | PDict d => Ok (map (fun kv => PStr (fst kv)) (map_to_list d))
  | PStr s => Ok (map (fun c => PStr (String c EmptyString)) (list_ascii_of_string s))
  | _ => Raise TypeError
  end.

(** ** Numbers *)

Definition Qltb (a b : Q) : bool := negb (Qle_bool b a).

(** [max(a, b)] keeps [a] unless [b > a]; [min(a, b)] keeps [a] unless [b < a]. *)
Definition py_max (a b : Q) : Q := if Qltb a b then b else a.
Definition py_min (a b : Q) : Q := if Qltb b a then b else a.

(** [a / b] on ints (true division). The quotient is kept exact; CPython
    rounds it to the nearest binary64 float (and raises [OverflowError]
    when that is out of range, far beyond the minutes and scene counts of
    the form). *)
Definition py_truediv (a b : Z) : res Q :=
  if (b =? 0)%Z then Raise ZeroDivisionError else Ok (inject_Z a / inject_Z b)%Q.

(** [a / b] on floats. *)
Definition py_fdiv (a b : Q) : res Q :=
  if Qeq_bool b 0 then Raise ZeroDivisionError else Ok (a / b)%Q.

(** [int(x)]: truncation toward zero. *)
Definition py_int (x : Q) : Z := Z.quot (Qnum x) (Z.pos (Qden x)).

(** [str(n)] for an int. *)
Definition py_str (n : Z) : string := NilZero.string_of_int (Z.to_int n).

(** [f"{i:02d}"] for the scene counter (which is at least 1). *)
Definition fmt_02d (i : Z) : string :=
  if (0 <=? i)%Z && (i <? 10)%Z then "0" ++ py_str i else py_str i.

(** ** Lists *)

(** [l[:n]]: a negative bound counts from the end. *)
Definition py_slice_to {A} (l : list A) (n : Z) : list A :=
  if (n <? 0)%Z then firstn (Z.to_nat (Z.of_nat (length l) + n)) l
  else firstn (Z.to_nat n) l.

(** [l.insert(-1, x)]: before the last element (at the front of an empty list). *)
Fixpoint py_insert_before_last {A} (x : A) (l : list A) : list A :=
  match l with
  | [] => [x]
  | [y] => [x; y]
  | y :: l' => y :: py_insert_before_last x l'
  end.

(** ** Strings *)

Definition is_upper (c : ascii) : bool :=
  let n := nat_of_ascii c in (65 <=? n)%nat && (n <=? 90)%nat.
Definition is_lower (c : ascii) : bool :=
  let n := nat_of_ascii c in (97 <=? n)%nat && (n <=? 122)%nat.
Definition to_upper (c : ascii) : ascii :=
  if is_lower c then ascii_of_nat (nat_of_ascii c - 32) else c.
Definition to_lower (c : ascii) : ascii :=
  if is_upper c then ascii_of_nat (nat_of_ascii c + 32) else c.

(** [str.title()] and [str.lower()] map every cased letter of Unicode, and
    the tables of those mappings belong to the Python runtime, not to the
    program: the embedding takes both methods from outside. [s.title()] is
    called by the story engine, which talks to nothing else, and is a class
    of its own; [s.lower()] comes with the record [Env] below. *)
Class PyStr : Type := {
  py_title : string -> string   (* [s.title()] *)
}.

(** What the two methods do to a text of ASCII characters only, to run the
    program on such texts: in a title a letter that follows a non-letter is
    upper-cased and any other letter lower-cased; other bytes are kept. *)
Fixpoint ascii_title_from (after_letter : bool) (s : string) : string :=
  match s with
  | EmptyString => EmptyString
  | String c r =>
      if is_upper c || is_lower c
      then String (if after_letter then to_lower c else to_upper c) (ascii_title_from true r)
      else String c (ascii_title_from false r)
  end.
Definition ascii_title (s : string) : string := ascii_title_from false s.

Fixpoint ascii_lower (s : string) : string :=
  match s with
  | EmptyString => EmptyString
  | String c r => String (to_lower c) (ascii_lower r)
  end.

#[export] Instance ascii_str : PyStr := {| py_title := ascii_title |}.

Definition is_char (x c : ascii) : bool := Ascii.eqb x c.
Arguments is_char : simpl never.

Fixpoint contains_char (x : ascii) (s : string) : bool :=
  match s with
  | EmptyString => false
  | String c r => is_char x c || contains_char x r
  end.

(** [s.split(",")[0]]: the text before the first comma. *)
Fixpoint before_comma (s : string) : string :=
  match s with
  | EmptyString => EmptyString
  | String c r => if is_char "," c then EmptyString else String c (before_comma r)
  end.

(** A [str] is a sequence of code points, held here as its UTF-8 bytes: a
    code point is one leading byte followed by its continuation bytes
    (those of the form 10xxxxxx). *)
Definition is_continuation (c : ascii) : bool :=
  let n := nat_of_ascii c in (128 <=? n)%nat && (n <? 192)%nat.

(** [len(s)]: the number of code points. *)
Fixpoint str_len (s : string) : nat :=
  match s with
  | EmptyString => 0
  | String c r => if is_continuation c then str_len r else S (str_len r)
  end.

(** [s[:n]] for a non-negative literal bound: the first [n] code points. *)
Fixpoint str_take (n : nat) (s : string) : string :=
  match s with
  | EmptyString => EmptyString
  | String c r =>
      if is_continuation c then String c (str_take n r)
      else match n with
           | O => EmptyString
           | S n' => String c (str_take n' r)
           end
  end.

(** ** [os.path] (POSIX flavour) *)

Definition has_sep (p : string) : bool := contains_char "/" p.

(** [p[:p.rfind('/')+1]] and [p[p.rfind('/')+1:]]. *)
Fixpoint path_head (p : string) : string :=
  match p with
  | EmptyString => EmptyString
  | String c r => if has_sep p then String c (path_head r) else EmptyString
  end.
Fixpoint path_tail (p : string) : string :=
  match p with
  | EmptyString => EmptyString
  | String c r => if has_sep p then path_tail r else p
  end.

Fixpoint all_seps (p : string) : bool :=
  match p with
  | EmptyString => true
  | String c r => is_char "/" c && all_seps r
  end.

Definition str_empty (s : string) : bool :=
  match s with EmptyString => true | _ => false end.

(** [head.rstrip('/')]. *)
Fixpoint rstrip_sep (p : string) : string :=
  match p with
  | EmptyString => EmptyString
  | String c r =>
      let r' := rstrip_sep r in
      if is_char "/" c && str_empty r' then EmptyString else String c r'
  end.

Definition os_path_dirname (p : string) : string :=
  let head := path_head p in
  if negb (str_empty head) && negb (all_seps head) then rstrip_sep head else head.

Definition os_path_basename (p : string) : string := path_tail p.

(** [os.path.splitext(p)[0]]: the extension starts at the last dot of the
    last component, unless that component has only leading dots before it. *)
Fixpoint drop_ext (seen_name : bool) (s : string) : string :=
  match s with
  | EmptyString => EmptyString
  | String c r =>
      if is_char "." c
      then if seen_name && negb (contains_char "." r) then EmptyString
           else String c (drop_ext seen_name r)
      else String c (drop_ext true r)
  end.
Definition os_path_splitext_root (p : string) : string :=
  path_head p ++ drop_ext false (path_tail p).

Definition ends_with_sep (p : string) : bool :=
  match p with
  | EmptyString => false
  | _ => negb (String.eqb (rstrip_sep p) p)
  end.

(** [os.path.join(a, b)]. *)
Definition os_path_join (a b : string) : string :=
  match b with
  | String c _ =>
      if is_char "/" c then b
      else if str_empty a || ends_with_sep a then a ++ b else a ++ "/" ++ b
  | EmptyString => if str_empty a || ends_with_sep a then a else a ++ "/"
  end.

(** ** Configuration (lines 62-74) *)

Definition INSTAGRAM_RES : Z * Z := (1080, 1920)%Z.
Definition YOUTUBE_RES : Z * Z := (1920, 1080)%Z.
Definition FPS : Z := 30.
Definition ASSETS_DIR : string := "outputs".

(** ** Data structures *)

(** The dataclass does not check field types: a scene built from a service
    response holds whatever JSON values the response had. *)
Record Scene : Type := mkScene {
  text : pyval;
  prompt : pyval;
  duration : Q (* seconds *)
}.

(** ** Pillow images, as far as the program looks at them *)

Inductive font : Type :=
| FreeTypeFont (size : Z)
| BitmapFont.

Definition color : Type := (Z * Z * Z)%type.

Inductive draw_op : Type :=
| DrawLine (x0 y0 x1 y1 : Z) (fill : color)
| DrawRoundedRect (x0 y0 x1 y1 radius : Z) (fill : option (Z * Z * Z * Z))
    (outline : color) (width : Z)
| DrawText (x y : Q) (s : string) (fill : color) (f : font).

Record Image : Type := mkImage {
  im_width : Z;
  im_height : Z;
  im_ops : list draw_op   (* what was drawn, oldest first *)
}.

(** ** The outside world *)

Record http_response : Type := mkResponse {
  status_ok : bool;          (* raise_for_status() passes *)
  body_json : res pyval      (* what r.json() gives *)
}.

Inductive event : Type :=
| EvPost (url : string)
| EvTTS (engine : string) (wav_path : string)
| EvSaved (path : string)
| EvInfo (msg : string)
| EvVideo (path : string)
| EvWarning (e : exn)
| EvError (path : string) (e : exn).

(** Python's [random] module: the generator behind [random.seed] and
    [random.choice]. *)
Class PyRandom : Type := {
  rng_state : Type;
  random_seed : string -> rng_state;
  randbelow : nat -> rng_state -> nat * rng_state;
  randbelow_lt : forall n s, (0 < n)%nat -> (fst (randbelow n s) < n)%nat
}.

(** What the installed libraries, the environment variables and the
    external programs answer. *)
Record Env : Type := mkEnv {
  (* [import requests] / [import pyttsx3] succeeded *)
  requests_installed : bool;
  pyttsx3_installed : bool;
  (* environment variables (lines 66-71) *)
  SD_API : option string;
  OLLAMA_API : string;
  PIPER_PATH : option string;
  PIPER_VOICE : option string;
  (* [requests.post]: an exception, or a response *)
  http_post : string -> pyval -> res http_response;
  (* [json.loads] on a string *)
  json_loads : string -> res pyval;
  (* [Image.open(io.BytesIO(base64.b64decode(v))).convert("RGB")] *)
  image_decode : pyval -> res Image;
  (* Pillow: is this font file found; what [ImageFont.load_default()] gives;
     the pixel length of a single line of text *)
  font_file : string -> bool;
  default_font : font;
  text_length : string -> font -> Q;
  (* [s.lower()] of the runtime's [str] *)
  py_lower : string -> string;
  (* pyttsx3: the system voices as (id, name); [init], [setProperty],
     [save_to_file] and [runAndWait] on a text, a path and a chosen voice *)
  pyttsx3_voices : list (string * option string);
  pyttsx3_run : pyval -> string -> option string -> res unit;
  (* [open(wav_path, 'wb')] and [subprocess.run] of piper / of espeak:
     an exception, or the return code and the stderr text *)
  piper_run : string -> string -> pyval -> string -> res (Z * string);
  espeak_run : list pyval -> res (Z * string);
  (* the operating system refuses to create this directory *)
  mkdir_refused : string -> bool;
  (* [img.save(path)], [AudioFileClip(path).duration],
     [final.write_videofile(path, ...)] *)
  image_save : string -> res unit;
  audio_file_duration : string -> res Q;
  write_videofile : string -> res unit;
  slugify : string -> string
}.

(** The process state: the global random generator, the directories that
    exist, and the log of calls that left the process. *)
Record World `{PyRandom} : Type := mkWorld {
  w_rng : rng_state;
  w_dirs : gset string;
  w_trace : list event
}.

(** ** The monad of effectful code *)

Definition M `{PyRandom} (A : Type) : Type := World -> res A * World.

Definition ret `{PyRandom} {A} (a : A) : M A := fun w => (Ok a, w).
Definition raise `{PyRandom} {A} (e : exn) : M A := fun w => (Raise e, w).
Definition bind `{PyRandom} {A B} (c : M A) (k : A -> M B) : M B :=
  fun w => match c w with
           | (Ok a, w') => k a w'
           | (Raise e, w') => (Raise e, w')
           end.
(** [try: c  except Exception as e: h e]. *)
Definition try_except `{PyRandom} {A} (c : M A) (h : exn -> M A) : M A :=
  fun w => match c w with
           | (Ok a, w') => (Ok a, w')
           | (Raise e, w') => h e w'
           end.
Definition lift `{PyRandom} {A} (r : res A) : M A := fun w => (r, w).
Definition emit `{PyRandom} (e : event) : M unit :=
  fun w => (Ok tt, mkWorld _ (w_rng w) (w_dirs w) (w_trace w ++ [e])).

Declare Scope py_scope.
Delimit Scope py_scope with py.
Notation "x <- c ;; k" := (bind c (fun x => k))
  (at level 100, c at next level, right associativity) : py_scope.
Notation "c ;;; k" := (bind c (fun _ => k))
  (at level 100, right associativity) : py_scope.
Local Open Scope py_scope.

(** A [for] loop that builds a list ([scenes.append] / a comprehension):
    stops at the first exception. *)
Fixpoint for_each `{PyRandom} {A B} (body : A -> M B) (l : list A) : M (list B) :=
  match l with
  | [] => ret []
  | a :: l' => b <- body a ;; bs <- for_each body l' ;; ret (b :: bs)
  end.

(** The same for a body that only raises. *)
Fixpoint for_each_res {A B} (body : A -> res B) (l : list A) : res (list B) :=
  match l with
  | [] => Ok []
  | a :: l' =>
      match body a with
      | Raise e => Raise e
      | Ok b => match for_each_res body l' with
                | Raise e => Raise e
                | Ok bs => Ok (b :: bs)
                end
      end
  end.

(** ** Built-in rule-based story engine (lines 88-130) *)

Definition MORALS : gmap string string :=
  list_to_map
    [ ("kindness", "Kindness makes friends and brightens the world.");
      ("honesty", "Telling the truth keeps hearts light and trust strong.");
      ("sharing", "Sharing turns little joys into big ones.");
      ("courage", "Being brave means trying even when things feel new.");
      ("curiosity", "Questions open doors to wonderful discoveries.") ].

(** [random.seed(a)] replaces the state of the global generator. *)
Definition py_random_seed `{PyRandom} (a : string) : M unit :=
  fun w => (Ok tt, mkWorld _ (random_seed a) (w_dirs w) (w_trace w)).

(** [random.choice(seq)] is [seq[randbelow(len(seq))]]. *)
Definition py_random_choice `{PyRandom} {A} (seq : list A) : M A :=
  fun w => match seq with
           | [] => (Raise IndexError, w)
           | d :: _ =>
               let (i, s) := randbelow (length seq) (w_rng w) in
               (Ok (nth i seq d), mkWorld _ s (w_dirs w) (w_trace w))
           end.

Definition beat : Type := (string * string)%type.

Definition initial_beats (title theme moral : string) : list beat :=
  [ ("Setup", "Introduce " ++ title ++ " in a cozy place related to " ++ theme ++ ".");
    ("Call to Adventure", "A gentle problem appears involving " ++ theme ++ ".");
    ("New Friend", "A helpful friend shares an idea.");
    ("Try and Learn", "They try a new way together.");
    ("Little Setback", "Something goes a bit wrong, but feelings are respected.");
    ("Brave Choice", "They breathe, think, and try again.");
    ("Happy Resolution", "The problem is solved kindly.");
    ("Moral", default moral (MORALS !! moral)) ].

Definition explore_beat : beat :=
  ("Explore", "They notice something wonderful around them.").

(** [while len(beats) < num_scenes: beats.insert(-1, explore)]: each round
    makes the list one longer, so [num_scenes - len(beats)] decreases. *)
Equations pad_beats (num_scenes : Z) (beats : list beat) : list beat
  by wf (Z.to_nat (num_scenes - Z.of_nat (length beats))) lt :=
  pad_beats num_scenes beats with Z_lt_dec (Z.of_nat (length beats)) num_scenes := {
    | left _ => pad_beats num_scenes (py_insert_before_last explore_beat beats)
    | right _ => beats }.
Next Obligation.
  assert (E : forall (x : beat) bs, length (py_insert_before_last x bs) = S (length bs)).
  { intros x bs. induction bs as [|y [|z bs'] IH]; simpl in *; auto. }
  rewrite E. lia.
Qed.

(** [max(3.5, min(10.0, (minutes * 60) / num_scenes))]. *)
Definition base_duration (minutes num_scenes : Z) : res Q :=
  match py_truediv (minutes * 60) num_scenes with
  | Raise e => Raise e
  | Ok x => Ok (py_max (7 # 2) (py_min 10 x))
  end.

(** The body of the loop over the beats (lines 114-127). *)
Definition scene_of_beat `{PyRandom} (title theme : string) (minutes num_scenes : Z)
    (b : beat) : M Scene :=
  let idea := snd b in
  simple_adj <- py_random_choice ["soft"; "bright"; "happy"; "gentle"; "sparkly"; "cozy"] ;;
  buddy <- py_random_choice ["bunny"; "panda"; "fox"; "kitten"; "puppy"; "duckling"] ;;
  place <- py_random_choice ["meadow"; "forest"; "playroom"; "treehouse"; "seashore"; "garden"] ;;
  color <- py_random_choice ["sunny yellow"; "sky blue"; "leafy green"; "peachy pink"; "lavender"] ;;
  let line :=
    title ++ " and a " ++ simple_adj ++ " " ++ buddy ++ " were in the " ++ place ++ ". "
    ++ idea ++ " They use " ++ theme ++ " to help." in
  let prompt :=
    "Cute children’s book illustration, " ++ buddy ++ " and child in a " ++ place ++ ", "
    ++ "soft lighting, pastel colors, " ++ color
    ++ ", friendly faces, simple shapes, high contrast, clean background" in
  base_dur <- lift (base_duration minutes num_scenes) ;;
  ret (mkScene (PStr line) (PStr prompt) base_dur).

Definition generate_story_rule_based `{PyRandom} `{PyStr}
    (title : string) (age : Z) (theme moral : string) (minutes num_scenes : Z)
    : M (pyval * list Scene) :=
  py_random_seed (title ++ theme ++ moral ++ py_str age ++ py_str minutes ++ py_str num_scenes) ;;;
  let beats := initial_beats title theme moral in
  let beats := pad_beats num_scenes beats in
  let beats := py_slice_to beats num_scenes in
  scenes <- for_each (scene_of_beat title theme minutes num_scenes) beats ;;
  let story_title := title ++ ": A " ++ py_title theme ++ " Adventure" in
  ret (PStr story_title, scenes).

(** A small linear congruential generator, to run the engine on concrete
    inputs (CPython uses the Mersenne Twister; any generator fits
    [PyRandom]). *)
Definition lcg_seed (a : string) : nat := String.length a.
Definition lcg_below (n : nat) (s : nat) : nat * nat :=
  ((s mod n)%nat, ((s * 5 + 3) mod 101)%nat).
#[export] Program Instance lcg_random : PyRandom :=
  {| rng_state := nat; random_seed := lcg_seed; randbelow := lcg_below |}.
Next Obligation. simpl. apply Nat.mod_upper_bound. lia. Qed.

Definition world0 : World := mkWorld lcg_random 0%nat ∅ [].

(** ** Local LLM story via Ollama (lines 135-177) *)

Notation "x <-? c ;; k" :=
  (match c with Ok x => k | Raise e => Raise e end)
  (at level 100, c at next level, right associativity) : py_scope.

Definition LLM_PROMPT : string :=
  "You are a children’s storyteller. Write a short story split into SCENES. "
  ++ "Return strict JSON with keys: title (string), scenes (array of objects with 'text' and 'prompt'). "
  ++ "Age-appropriate (3–8), friendly tone, simple words, each scene 1–3 sentences, and a gentle arc.".

Definition LF : string := String (ascii_of_nat 10) EmptyString.

(** [requests.post(url, json=payload, timeout=180)]. *)
Definition requests_post `{PyRandom} (env : Env) (url : string) (payload : pyval)
    : M http_response :=
  emit (EvPost url) ;;; lift (http_post env url payload).

Definition raise_for_status (r : http_response) : res unit :=
  if status_ok r then Ok tt else Raise HTTPError.

(** [json.loads(text)]: the argument must be a string. *)
Definition py_json_loads (env : Env) (v : pyval) : res pyval :=
  match v with
  | PStr s => json_loads env s
  | _ => Raise TypeError
  end.

(** The list comprehension of lines 164-171. *)
Definition llm_scenes (data : pyval) (minutes num_scenes : Z) : res (list Scene) :=
  raw <-? py_get data "scenes" (PList []) ;;
  items <-? py_iter raw ;;
  for_each_res
    (fun s =>
       t <-? py_get s "text" (PStr "") ;;
       p <-? py_get s "prompt" (PStr "friendly illustration of the scene") ;;
       d <-? base_duration minutes num_scenes ;;
       Ok (mkScene t p d))
    items.

(** The body of the [try] (lines 163-174). *)
Definition parse_llm_story (env : Env) (resp : pyval) (title : string)
    (minutes num_scenes : Z) : res (pyval * list Scene) :=
  data <-? py_json_loads env resp ;;
  scenes <-? llm_scenes data minutes num_scenes ;;
  match scenes with
  | [] => Raise (ValueError "No scenes in LLM output")
  | _ =>
      t <-? py_get data "title" (PStr title) ;;
      Ok (t, py_slice_to scenes num_scenes)
  end.

Definition ollama_payload (title : string) (age : Z) (theme moral : string)
    (minutes num_scenes : Z) (model : string) : pyval :=
  PDict (list_to_map
    [ ("model", PStr model);
      ("prompt", PStr (LLM_PROMPT ++ LF
                       ++ "Title: " ++ title ++ LF
                       ++ "Age: " ++ py_str age ++ LF
                       ++ "Theme: " ++ theme ++ LF
                       ++ "Moral: " ++ moral ++ LF
                       ++ "Scenes: " ++ py_str num_scenes ++ LF
                       ++ "Duration minutes: " ++ py_str minutes ++ LF
                       ++ "Return only JSON."));
      ("stream", PBool false) ]).

Definition generate_story_ollama `{PyRandom} `{PyStr} (env : Env)
    (title : string) (age : Z) (theme moral : string) (minutes num_scenes : Z)
    (model : string) : M (pyval * list Scene) :=
  if negb (requests_installed env)
  then raise (RuntimeError "'requests' not installed for Ollama API.")
  else
    r <- requests_post env (OLLAMA_API env ++ "/api/generate")
           (ollama_payload title age theme moral minutes num_scenes model) ;;
    lift (raise_for_status r) ;;;
    body <- lift (body_json r) ;;
    resp <- lift (py_get body "response" (PStr "{}")) ;;
    try_except
      (lift (parse_llm_story env resp title minutes num_scenes))
      (fun _ =>
         (* fallback to rule based if parsing fails *)
         generate_story_rule_based title age theme moral minutes num_scenes).

(** ** Illustration generation (lines 183-228) *)

Definition truthy (s : option string) : bool :=
  match s with Some (String _ _) => true | _ => false end.

(** [v[key]] and [v[0]]. *)
Definition py_item (v : pyval) (key : string) : res pyval :=
  match v with
  | PDict d => match d !! key with Some x => Ok x | None => Raise KeyError end
  | _ => Raise TypeError
  end.
Definition py_first (v : pyval) : res pyval :=
  match v with
  | PList (x :: _) => Ok x
  | PList [] => Raise IndexError
  | PStr (String c _) => Ok (PStr (String c EmptyString))
  | PStr EmptyString => Raise IndexError
  | PDict _ => Raise KeyError
  | _ => Raise TypeError
  end.

Definition sd_txt2img `{PyRandom} (env : Env) (prompt : pyval) (width height : Z) : M Image :=
  if negb (truthy (SD_API env)) || negb (requests_installed env)
  then raise (RuntimeError "Stable Diffusion API not configured.")
  else
    let payload := PDict (list_to_map
      [ ("prompt", prompt); ("width", PNum (inject_Z width)); ("height", PNum (inject_Z height));
        ("steps", PNum 25); ("sampler_index", PStr "Euler a"); ("cfg_scale", PNum (13 # 2)) ]) in
    r <- requests_post env (default "" (SD_API env) ++ "/sdapi/v1/txt2img") payload ;;
    lift (raise_for_status r) ;;;
    data <- lift (body_json r) ;;
    lift (images <-? py_item data "images" ;;
          img_b64 <-? py_first images ;;
          image_decode env img_b64).

(** Pillow: [Image.new] refuses a negative size. *)
Definition image_new (width height : Z) : res Image :=
  if (width <? 0)%Z || (height <? 0)%Z
  then Raise (ValueError "Width and height must be >= 0")
  else Ok (mkImage width height []).

Definition draw (op : draw_op) (img : Image) : Image :=
  mkImage (im_width img) (im_height img) (im_ops img ++ [op]).

(** Pillow: [rounded_rectangle] refuses a box whose corners are swapped. *)
Definition draw_rounded_rectangle (x0 y0 x1 y1 radius : Z) (fill : option (Z * Z * Z * Z))
    (outline : color) (width : Z) (img : Image) : res Image :=
  if (x1 <? x0)%Z then Raise (ValueError "x1 must be greater than or equal to x0")
  else if (y1 <? y0)%Z then Raise (ValueError "y1 must be greater than or equal to y0")
  else Ok (draw (DrawRoundedRect x0 y0 x1 y1 radius fill outline width) img).

(** Pillow: [ImageFont.truetype] needs the font file and a positive size. *)
Definition truetype (env : Env) (name : string) (size : Z) : res font :=
  if font_file env name && (0 <? size)%Z then Ok (FreeTypeFont size)
  else Raise (OSError "cannot open resource").

(** Pillow: [ImageDraw.textlength] refuses text with a line break. *)
Definition textlength (env : Env) (s : string) (f : font) : res Q :=
  if contains_char (ascii_of_nat 10) s
  then Raise (ValueError "can't measure length of multiline text")
  else Ok (text_length env s f).

(** [font.size]: the bitmap font object has no such attribute. *)
Definition font_size (f : font) : res Z :=
  match f with
  | FreeTypeFont size => Ok size
  | BitmapFont => Raise AttributeError
  end.

Definition range (n : Z) : list Z := map Z.of_nat (seq 0 (Z.to_nat n)).

Definition Qmul_Z (n : Z) (x : Q) : Q := (inject_Z n * x)%Q.

(** The gradient loop (lines 198-203). *)
Definition gradient_lines (width height : Z) : res (list draw_op) :=
  for_each_res
    (fun y =>
       t <-? py_truediv y height ;;
       let r := py_int (255 - 20 * t)%Q in
       let g := py_int (250 - 50 * t)%Q in
       let b := py_int (240 - 60 * t)%Q in
       Ok (DrawLine 0 y width y (r, g, b)))
    (range height).

(** The speech bubble of lines 206-209: [(bx, by, bubble_w, bubble_h)]. *)
Definition bubble_box (width height : Z) : Z * Z * Z * Z :=
  let bubble_w := py_int (Qmul_Z width (86 # 100)) in
  let bubble_h := py_int (Qmul_Z height (18 # 100)) in
  let bx := ((width - bubble_w) / 2)%Z in
  let by_ := py_int (Qmul_Z height (72 # 100)) in
  (bx, by_, bubble_w, bubble_h).

(** Lines 196-210: gradient, frame and speech bubble. *)
Definition fallback_background (width height : Z) : res Image :=
  img <-? image_new width height ;;
  lines <-? gradient_lines width height ;;
  let img := mkImage (im_width img) (im_height img) (im_ops img ++ lines) in
  let margin := py_int (Qmul_Z (Z.min width height) (3 # 100)) in
  img <-? draw_rounded_rectangle margin margin (width - margin) (height - margin) margin
            None (255, 230, 200)%Z 6 img ;;
  let '(bx, by_, bubble_w, bubble_h) := bubble_box width height in
  draw_rounded_rectangle bx by_ (bx + bubble_w) (by_ + bubble_h) 24
    (Some (255, 255, 255, 230)%Z) (240, 220, 200)%Z 4 img.

(** Lines 211-214: the preferred font, else the default one. *)
Definition bubble_font (env : Env) (bubble_h : Z) : font :=
  match truetype env "DejaVuSans.ttf" (py_int (Qmul_Z bubble_h (28 # 100))) with
  | Ok f => f
  | Raise _ => default_font env
  end.

(** [prompt.split(",")[0][:80]]. *)
Definition first_clause (p : string) : string := str_take 80 (before_comma p).

Definition fallback_illustration (env : Env) (prompt : pyval) (width height : Z) : res Image :=
  img <-? fallback_background width height ;;
  let '(bx, by_, bubble_w, bubble_h) := bubble_box width height in
  let font := bubble_font env bubble_h in
  match prompt with
  | PStr p =>
      let text := first_clause p in
      tw <-? textlength env text font ;;
      th <-? font_size font ;;
      let tx := if (bubble_w =? 0)%Z then inject_Z bx
                else (inject_Z bx + inject_Z (Qfloor ((inject_Z bubble_w - tw) / 2)))%Q in
      let ty := (by_ + (bubble_h - th) / 2)%Z in
      Ok (draw (DrawText tx (inject_Z ty) text (60, 60, 60)%Z font) img)
  | _ => Raise AttributeError
  end.

Definition make_image `{PyRandom} (env : Env) (prompt : pyval) (resolution : Z * Z) : M Image :=
  let (w, h) := resolution in
  try_except (sd_txt2img env prompt w h)
             (fun _ => lift (fallback_illustration env prompt w h)).

(** ** TTS (lines 234-277) *)

(** [a in b] on strings (a match of whole UTF-8 sequences is a match of
    code points, and conversely). *)
Definition str_in (a b : string) : bool :=
  match index 0 a b with Some _ => true | None => str_empty a end.

(** The voice the loop of lines 239-242 selects, if any. *)
Definition pick_voice (env : Env) (voice_hint : string)
    (voices : list (string * option string)) : option string :=
  match filter (fun v => str_in (py_lower env voice_hint)
                                (py_lower env (default "" (snd v)))) voices with
  | v :: _ => Some (fst v)
  | [] => None
  end.

(** Lines 238-242: the voices are searched only [if voice_hint:]. *)
Definition selected_voice (env : Env) (voice_hint : option string) : option string :=
  if truthy voice_hint
  then pick_voice env (default "" voice_hint) (pyttsx3_voices env)
  else None.

Definition tts_pyttsx3 `{PyRandom} (env : Env) (text : pyval) (wav_path : string)
    (voice_hint : option string) : M unit :=
  if negb (pyttsx3_installed env) then raise (RuntimeError "pyttsx3 not available.")
  else
    let voice := selected_voice env voice_hint in
    emit (EvTTS "pyttsx3" wav_path) ;;;
    lift (pyttsx3_run env text wav_path voice).

Definition tts_piper `{PyRandom} (env : Env) (text : pyval) (wav_path : string)
    (voice_path : option string) : M unit :=
  let exe := PIPER_PATH env in
  let voice := if truthy voice_path then voice_path else PIPER_VOICE env in
  if negb (truthy exe) || negb (truthy voice)
  then raise (RuntimeError "Piper not configured. Set PIPER_PATH and PIPER_VOICE.")
  else
    emit (EvTTS "piper" wav_path) ;;;
    proc <- lift (piper_run env (default "" exe) (default "" voice) text wav_path) ;;
    if negb (fst proc =? 0)%Z then raise (RuntimeError ("Piper failed: " ++ snd proc))
    else ret tt.

Definition tts_espeak `{PyRandom} (env : Env) (text : pyval) (wav_path : string)
    (voice : option string) : M unit :=
  let cmd := [PStr "espeak"; PStr "-w"; PStr wav_path; text] in
  let cmd := if truthy voice then (cmd ++ [PStr "-v"; PStr (default "" voice)])%list else cmd in
  emit (EvTTS "espeak" wav_path) ;;;
  proc <- lift (espeak_run env cmd) ;;
  if negb (fst proc =? 0)%Z then raise (RuntimeError ("eSpeak failed: " ++ snd proc))
  else ret tt.

(** [os.makedirs(name, exist_ok=...)]. Creating the directory named by the
    empty string fails with ENOENT whatever the file system holds; for any
    other name the operating system decides ([mkdir_refused]), and the
    parents it creates on the way are not tracked. *)
Definition os_makedirs `{PyRandom} (env : Env) (name : string) (exist_ok : bool) : M unit :=
  fun w =>
    if str_empty name then (Raise FileNotFoundError, w)
    else if bool_decide (name ∈ w_dirs w)
    then (if exist_ok then Ok tt else Raise (OSError "File exists"), w)
    else if mkdir_refused env name then (Raise (OSError "cannot create directory"), w)
    else (Ok tt, mkWorld _ (w_rng w) ({[ name ]} ∪ w_dirs w) (w_trace w)).

Definition synthesize `{PyRandom} (env : Env) (text : pyval) (out_wav : string)
    (engine : string) (voice_hint : option string) : M unit :=
  os_makedirs env (os_path_dirname out_wav) true ;;;
  if String.eqb engine "Piper (offline)" then tts_piper env text out_wav None
  else if String.eqb engine "eSpeak (offline)" then tts_espeak env text out_wav None
  else (* default *) tts_pyttsx3 env text out_wav voice_hint.

(** ** Video assembly (lines 283-309) *)

Record AudioClip : Type := mkAudio {
  a_path : string;
  a_duration : Q
}.

(** The clip classes of the MoviePy that line 43 imports: the top-level
    names [from moviepy import ImageClip, AudioFileClip, ...] exist from
    release 2.0 on (before it they live in [moviepy.editor], and line 43
    fails). Release 2.0 renamed the methods that return a changed copy of a
    clip: [set_duration], [set_audio], [set_start], [resize] and [fx] became
    [with_duration], [with_audio], [with_start], [resized] and
    [with_effects], and the old names are gone. *)
Definition clip_methods : list string :=
  [ "with_duration"; "with_audio"; "with_start"; "with_end"; "with_fps";
    "with_position"; "with_effects"; "resized"; "cropped"; "rotated";
    "subclipped"; "write_videofile"; "close" ].

(** [clip.name]: looking up a method of a clip. *)
Definition clip_getattr (name : string) : res unit :=
  if existsb (String.eqb name) clip_methods then Ok tt else Raise AttributeError.

(** A MoviePy clip: the still image it shows, for how long, from when on
    the timeline, with which audio and which time-dependent scale. *)
Record Clip : Type := mkClip {
  c_image : string;
  c_size : Z * Z;
  c_duration : Q;
  c_start : Q;
  c_audio : option AudioClip;
  c_scale : option (Q -> res Q)
}.

Record Timeline : Type := mkTimeline {
  t_clips : list Clip;
  t_duration : Q
}.

Definition zoom_end : Q := 105 # 100.

(** [lambda t: 1 + (zoom_end-1) * (t / clip.duration)]. *)
Definition zoom_scale (clip_duration : Q) (t : Q) : res Q :=
  x <-? py_fdiv t clip_duration ;;
  Ok (1 + (zoom_end - 1) * x)%Q.

(** [np.cumsum] of the durations, from a running total. *)
Fixpoint cumsum (acc : Q) (ds : list Q) : list Q :=
  match ds with
  | [] => []
  | d :: r => (acc + d)%Q :: cumsum (acc + d)%Q r
  end.

Definition with_start (c : Clip) (t : Q) : Clip :=
  mkClip (c_image c) (c_size c) (c_duration c) t (c_audio c) (c_scale c).

(** [[clip.with_start(t) for (clip, t) in zip(clips, tt)]]. *)
Definition start_all (clips : list Clip) (tt : list Q) : list Clip :=
  map (fun ct => with_start (fst ct) (snd ct)) (combine clips tt).

(** MoviePy: [concatenate_videoclips(clips, method="compose")] with no
    padding. [tt = cumsum([0] + durations)]; clip [i] starts at [tt[i]];
    the result lasts [tt[-1]]. The frame size is a [max] over the clips,
    which fails on no clip at all. *)
Definition concatenate_videoclips (clips : list Clip) : res Timeline :=
  match clips with
  | [] => Raise (ValueError "max() arg is an empty sequence")
  | _ =>
      let tt := 0%Q :: cumsum 0%Q (map c_duration clips) in
      Ok (mkTimeline (start_all clips tt) (List.last tt 0%Q))
  end.

(** [enumerate(l, start=i)]. *)
Fixpoint enumerate {A} (i : Z) (l : list A) : list (Z * A) :=
  match l with
  | [] => []
  | a :: r => (i, a) :: enumerate (i + 1)%Z r
  end.

(** The body of the loop over the scenes (lines 290-302). *)
Definition scene_clip `{PyRandom} (env : Env) (resolution : Z * Z) (workdir : string)
    (voice_hint : option string) (tts_engine : string) (isc : Z * Scene) : M Clip :=
  let (i, sc) := isc in
  img <- make_image env (prompt sc) resolution ;;
  let img_path := os_path_join workdir ("scene_" ++ fmt_02d i ++ ".png") in
  emit (EvSaved img_path) ;;;
  lift (image_save env img_path) ;;;
  let wav_path := os_path_join workdir ("scene_" ++ fmt_02d i ++ ".wav") in
  synthesize env (text sc) wav_path tts_engine voice_hint ;;;
  d <- lift (audio_file_duration env wav_path) ;;
  let ac := mkAudio wav_path d in
  (* ic = ImageClip(img_path).set_duration(max(sc.duration, ac.duration))
                             .set_audio(ac).resize((W, H)) *)
  lift (clip_getattr "set_duration") ;;;
  let shown_for := py_max (duration sc) (a_duration ac) in
  lift (clip_getattr "set_audio") ;;;
  lift (clip_getattr "resize") ;;;
  let ic := mkClip img_path resolution shown_for 0 (Some ac) None in
  (* Gentle Ken Burns: ic = ic.fx(lambda clip: clip.resize(lambda t: ...)) *)
  lift (clip_getattr "fx") ;;;
  lift (clip_getattr "resize") ;;;
  let ic := mkClip (c_image ic) (c_size ic) (c_duration ic) (c_start ic) (c_audio ic)
                   (Some (zoom_scale (c_duration ic))) in
  ret ic.

Definition video_workdir (env : Env) (out_path : string) : string :=
  os_path_join ASSETS_DIR (slugify env (os_path_splitext_root (os_path_basename out_path))).

(** Lines 284-304: everything up to the finished timeline [final]. *)
Definition build_timeline `{PyRandom} (env : Env) (scenes : list Scene)
    (resolution : Z * Z) (out_path : string) (voice_hint : option string)
    (tts_engine : string) : M Timeline :=
  let workdir := video_workdir env out_path in
  os_makedirs env workdir true ;;;
  clips <- for_each (scene_clip env resolution workdir voice_hint tts_engine)
             (enumerate 1 scenes) ;;
  lift (concatenate_videoclips clips).

Definition build_video `{PyRandom} (env : Env) (scenes : list Scene)
    (resolution : Z * Z) (out_path : string) (voice_hint : option string)
    (tts_engine : string) : M string :=
  final <- build_timeline env scenes resolution out_path voice_hint tts_engine ;;
  emit (EvSaved out_path) ;;;
  lift (write_videofile env out_path) ;;;
  ret out_path.

(** ** Streamlit UI: the story step (lines 343-350) and the render loop
    (lines 362-370) *)

Definition ui_story `{PyRandom} `{PyStr} (env : Env) (story_engine : string)
    (title : string) (age : Z) (theme moral : string) (minutes num_scenes : Z)
    (ollama_model : string) : M (pyval * list Scene) :=
  if String.eqb story_engine "Ollama (local LLM)"
  then try_except
         (generate_story_ollama env title age theme moral minutes num_scenes ollama_model)
         (fun e =>
            (* Ollama failed (e). Falling back to built-in. *)
            emit (EvWarning e) ;;;
            generate_story_rule_based title age theme moral minutes num_scenes)
  else generate_story_rule_based title age theme moral minutes num_scenes.

Definition export_target : Type := ((Z * Z) * string)%type.

(** [f"Rendering: {os.path.basename(path)} @ {res[0]}x{res[1]} …"]. *)
Definition rendering_message (t : export_target) : string :=
  "Rendering: " ++ os_path_basename (snd t) ++ " @ "
  ++ py_str (fst (fst t)) ++ "x" ++ py_str (snd (fst t)) ++ " …".

Fixpoint ui_render `{PyRandom} (env : Env) (scenes : list Scene)
    (targets : list export_target) (voice_hint : option string) (tts_engine : string)
    (results : list string) : M (list string) :=
  match targets with
  | [] => ret results
  | (res, path) :: rest =>
      emit (EvInfo (rendering_message (res, path))) ;;;
      results <- try_except
                   (out <- build_video env scenes res path voice_hint tts_engine ;;
                    emit (EvVideo out) ;;;
                    ret (results ++ [out])%list)
                   (fun e => emit (EvError path e) ;;; ret results) ;;
      ui_render env scenes rest voice_hint tts_engine results
  end.

(** [x in platforms] on a list of strings. *)
Definition str_in_list (x : string) (l : list string) : bool :=
  existsb (String.eqb x) l.

(** python-slugify: [slugify(text)] decodes whatever is not a [str] as
    bytes, which fails on the values JSON can give. *)
Definition py_slugify (env : Env) (v : pyval) : res string :=
  match v with
  | PStr s => Ok (slugify env s)
  | _ => Raise TypeError
  end.

(** [f"{ASSETS_DIR}/{slug}{suffix}"]. *)
Definition target_path (slug suffix : string) : string :=
  ASSETS_DIR ++ "/" ++ slug ++ suffix.

(** The export targets chosen in the form (lines 356-360). *)
Definition ui_targets (env : Env) (platforms : list string) (story_title : pyval)
    : res (list export_target) :=
  let targets : list export_target := [] in
  targets <-?
    (if str_in_list "Both" platforms || str_in_list "Instagram Reels (9:16)" platforms
     then slug <-? py_slugify env story_title ;;
          Ok (app targets [(INSTAGRAM_RES, target_path slug "_IG_9x16.mp4")])
     else Ok targets) ;;
  if str_in_list "Both" platforms || str_in_list "YouTube (16:9)" platforms
  then slug <-? py_slugify env story_title ;;
       Ok (app targets [(YOUTUBE_RES, target_path slug "_YT_16x9.mp4")])
  else Ok targets.

(** ** Vocabulary of the specification *)

(** [clamp(x, lo, hi)] as the specification words it: [x] brought back
    into the closed interval from [lo] to [hi]. *)
Definition spec_clamp (x lo hi : Q) : Q :=
  if Qltb x lo then lo else if Qltb hi x then hi else x.

Definition Qsum (l : list Q) : Q := fold_right Qplus 0%Q l.

(** Clips laid end to end from time [t] to time [t_end]: each one starts
    at the instant the one before it stops. *)
Fixpoint contiguous (t : Q) (clips : list Clip) (t_end : Q) : Prop :=
  match clips with
  | [] => (t == t_end)%Q
  | c :: r => (c_start c == t)%Q /\ contiguous (c_start c + c_duration c)%Q r t_end
  end.

(** What the render loop shows when a target is done (lines 366-370): the
    video, or the error. *)
Definition report_event (path : string) (r : res string) : event :=
  match r with
  | Ok out => EvVideo out
  | Raise e => EvError path e
  end.

(** The process state once [e] has been logged. *)
Definition logged `{PyRandom} (e : event) (w : World) : World :=
  mkWorld _ (w_rng w) (w_dirs w) (w_trace w ++ [e]).

(** Every target is rendered in its turn: it is announced, [build_video]
    runs on it from the state the loop has reached, its outcome is shown,
    and the next target follows whatever that outcome was. The list gives,
    target by target, the path and whether a video came out. *)
Inductive renders_each `{PyRandom} (env : Env) (scenes : list Scene)
    (voice_hint : option string) (tts_engine : string)
    : list export_target -> World -> list (string * bool) -> World -> Prop :=
| renders_none w : renders_each env scenes voice_hint tts_engine [] w [] w
| renders_next res path rest w r w1 reps w' :
    build_video env scenes res path voice_hint tts_engine
      (logged (EvInfo (rendering_message (res, path))) w) = (r, w1) ->
    renders_each env scenes voice_hint tts_engine rest
      (logged (report_event path r) w1) reps w' ->
    renders_each env scenes voice_hint tts_engine ((res, path) :: rest) w
      ((path, is_ok r) :: reps) w'.

(** What the render loop tells the user about a target: the path, and
    whether the video was shown ([true]) or an error was ([false]). *)
Definition report_of (e : event) : option (string * bool) :=
  match e with
  | EvVideo p => Some (p, true)
  | EvError p _ => Some (p, false)
  | _ => None
  end.
Definition reports (tr : list event) : list (string * bool) := omap report_of tr.

(** The last of the eight beats (line 106). *)
Definition moral_beat (moral : string) : beat := ("Moral", default moral (MORALS !! moral)).

(** A scene written for a beat (lines 114-125): the words come from the
    four lists, the idea from the beat. *)
Definition scene_tells (title theme : string) (b : beat) (sc : Scene) : Prop :=
  exists simple_adj buddy place color,
    In simple_adj ["soft"; "bright"; "happy"; "gentle"; "sparkly"; "cozy"]
    /\ In buddy ["bunny"; "panda"; "fox"; "kitten"; "puppy"; "duckling"]
    /\ In place ["meadow"; "forest"; "playroom"; "treehouse"; "seashore"; "garden"]
    /\ In color ["sunny yellow"; "sky blue"; "leafy green"; "peachy pink"; "lavender"]
    /\ text sc = PStr (title ++ " and a " ++ simple_adj ++ " " ++ buddy
                       ++ " were in the " ++ place ++ ". "
                       ++ snd b ++ " They use " ++ theme ++ " to help.")
    /\ prompt sc = PStr ("Cute children’s book illustration, " ++ buddy
                         ++ " and child in a " ++ place ++ ", "
                         ++ "soft lighting, pastel colors, " ++ color
                         ++ ", friendly faces, simple shapes, high contrast, clean background").

(** The scene built from one object of the service's scene list (lines
    165-169): a missing text is empty, a missing prompt is the stock one. *)
Definition scene_of_item (d : Q) (s : gmap string pyval) : Scene :=
  mkScene (default (PStr "") (s !! "text"))
          (default (PStr "friendly illustration of the scene") (s !! "prompt"))
          d.

(** A system voice answers a hint when its name holds the hint, case
    aside (line 240). *)
Definition voice_matches (env : Env) (voice_hint : string) (v : string * option string)
    : bool :=
  str_in (py_lower env voice_hint) (py_lower env (default "" (snd v))).

(** The files of scene number [i] in a working directory (lines 291, 294). *)
Definition scene_png (workdir : string) (i : Z) : string :=
  os_path_join workdir ("scene_" ++ fmt_02d i ++ ".png").
Definition scene_wav (workdir : string) (i : Z) : string :=
  os_path_join workdir ("scene_" ++ fmt_02d i ++ ".wav").

(** The narration engine chosen in the form cannot be used on this
    machine: Piper without its two settings, or pyttsx3 (the default for
    any other name but eSpeak's) without the library. *)
Definition engine_unavailable (env : Env) (tts_engine : string) : Prop :=
  (tts_engine = "Piper (offline)"
   /\ (truthy (PIPER_PATH env) = false \/ truthy (PIPER_VOICE env) = false))
  \/ (tts_engine <> "Piper (offline)" /\ tts_engine <> "eSpeak (offline)"
      /\ pyttsx3_installed env = false).

(** The paths whose video was shown. *)
Definition shown (rs : list (string * bool)) : list string :=
  map fst (filter (fun r => snd r = true) rs).

(** The targets whose rendering was announced. *)
Definition announced_of (e : event) : option string :=
  match e with EvInfo msg => Some msg | _ => None end.
Definition announced (tr : list event) : list string := omap announced_of tr.

Definition is_ui_event (e : event) : bool :=
  match e with
  | EvInfo _ | EvVideo _ | EvWarning _ | EvError _ _ => true
  | _ => false
  end.

(** A scene duration [d] is the clamped share of the requested minutes. *)
Definition clamped_share (minutes num_scenes : Z) (d : Q) : Prop :=
  exists x, py_truediv (minutes * 60) num_scenes = Ok x
            /\ (d == spec_clamp x (7 # 2) 10)%Q
            /\ (7 # 2 <= d <= 10)%Q.

(** Code that reads nothing of the process state but the random
    generator: started from two states with the same generator it gives
    the same result and leaves the same generator. *)
Definition rng_only `{PyRandom} {A} (c : M A) : Prop :=
  forall w1 w2, w_rng w1 = w_rng w2 ->
    fst (c w1) = fst (c w2) /\ w_rng (snd (c w1)) = w_rng (snd (c w2)).

(** Two process states with the same file system and the same log. *)
Definition same_outside `{PyRandom} (w w' : World) : Prop :=
  w_dirs w' = w_dirs w /\ w_trace w' = w_trace w.

(** A scale that grows in a straight line from 1 at time 0 to 1.05 at
    time [d]. *)
Definition linear_zoom (f : Q -> res Q) (d : Q) : Prop :=
  (exists v, f 0%Q = Ok v /\ (v == 1)%Q)
  /\ (exists v, f d = Ok v /\ (v == 105 # 100)%Q)
  /\ (forall t, exists v, f t = Ok v /\ (v == 1 + ((5 # 100) / d) * t)%Q)
  /\ (forall t1 t2 v1 v2, (t1 < t2)%Q -> f t1 = Ok v1 -> f t2 = Ok v2 -> (v1 < v2)%Q).

(** Code that tells the user nothing: whatever it adds to the log is no
    UI event. *)
Definition silent `{PyRandom} {A} (c : M A) : Prop :=
  forall w, exists ext, w_trace (snd (c w)) = (w_trace w ++ ext)%list
                        /\ Forall (fun e => is_ui_event e = false) ext.

(** The process state once a request to [url] has gone out. *)
Definition posted `{PyRandom} (url : string) (w : World) : World :=
  mkWorld _ (w_rng w) (w_dirs w) (w_trace w ++ [EvPost url]).

Definition ollama_url (env : Env) : string := OLLAMA_API env ++ "/api/generate".

(** ** Concrete environments *)

(** A machine with no optional service: no Stable Diffusion, no Ollama
    listening, a working eSpeak and pyttsx3, six seconds of narration per
    scene, and a disk that refuses to write under [/readonly/]. *)
Definition offline_env : Env :=
  {| requests_installed := true;
     pyttsx3_installed := true;
     SD_API := None;
     OLLAMA_API := "http://127.0.0.1:11434";
     PIPER_PATH := None;
     PIPER_VOICE := None;
     http_post := fun _ _ => Raise ConnectionError;
     json_loads := fun _ => Raise JSONDecodeError;
     image_decode := fun _ => Raise (OSError "cannot identify image file");
     font_file := fun _ => true;
     default_font := FreeTypeFont 10;
     text_length := fun s _ => inject_Z (6 * Z.of_nat (String.length s));
     py_lower := ascii_lower;
     pyttsx3_voices := [];
     pyttsx3_run := fun _ _ _ => Ok tt;
     piper_run := fun _ _ _ _ => Ok (0%Z, "");
     espeak_run := fun _ => Ok (0%Z, "");
     mkdir_refused := fun _ => false;
     image_save := fun _ => Ok tt;
     audio_file_duration := fun _ => Ok 6%Q;
     write_videofile := fun p =>
       if String.prefix "/readonly/" p then Raise (OSError "Permission denied") else Ok tt;
     slugify := ascii_lower |}.

(** A well-formed story of a single scene, as [json.loads] returns it. *)
Definition one_scene_reply : pyval :=
  PDict (list_to_map
    [ ("title", PStr "The Moon Kite");
      ("scenes", PList [ PDict (list_to_map [ ("text", PStr "Mina flew her kite.");
                                               ("prompt", PStr "a kite, a moon") ]) ]) ]).

(** The same machine with an Ollama that answers the text [reply]; the
    text [{...}] stands for the story above, any other text does not
    parse. *)
Definition ollama_env (reply : string) : Env :=
  {| requests_installed := true;
     pyttsx3_installed := pyttsx3_installed offline_env;
     SD_API := None;
     OLLAMA_API := OLLAMA_API offline_env;
     PIPER_PATH := None;
     PIPER_VOICE := None;
     http_post := fun _ _ =>
       Ok (mkResponse true (Ok (PDict (list_to_map [("response", PStr reply)]))));
     json_loads := fun s =>
       if String.eqb s "{...}" then Ok one_scene_reply else Raise JSONDecodeError;
     image_decode := image_decode offline_env;
     font_file := font_file offline_env;
     default_font := default_font offline_env;
     text_length := text_length offline_env;
     py_lower := py_lower offline_env;
     pyttsx3_voices := [];
     pyttsx3_run := pyttsx3_run offline_env;
     piper_run := piper_run offline_env;
     espeak_run := espeak_run offline_env;
     mkdir_refused := mkdir_refused offline_env;
     image_save := image_save offline_env;
     audio_file_duration := audio_file_duration offline_env;
     write_videofile := write_videofile offline_env;
     slugify := slugify offline_env |}.

(** The offline machine with a Stable Diffusion service that answers every
    request with one picture of 512 by 512 pixels. *)
Definition sd_picture : Image := mkImage 512 512 [].

Definition sd_env : Env :=
  {| requests_installed := true;
     pyttsx3_installed := pyttsx3_installed offline_env;
     SD_API := Some "http://127.0.0.1:7860";
     OLLAMA_API := OLLAMA_API offline_env;
     PIPER_PATH := None;
     PIPER_VOICE := None;
     http_post := fun _ _ =>
       Ok (mkResponse true
             (Ok (PDict (list_to_map [("images", PList [PStr "iVBORw0KGgo="])]))));
     json_loads := json_loads offline_env;
     image_decode := fun _ => Ok sd_picture;
     font_file := font_file offline_env;
     default_font := default_font offline_env;
     text_length := text_length offline_env;
     py_lower := py_lower offline_env;
     pyttsx3_voices := [];
     pyttsx3_run := pyttsx3_run offline_env;
     piper_run := piper_run offline_env;
     espeak_run := espeak_run offline_env;
     mkdir_refused := mkdir_refused offline_env;
     image_save := image_save offline_env;
     audio_file_duration := audio_file_duration offline_env;
     write_videofile := write_videofile offline_env;
     slugify := slugify offline_env |}.

Definition demo_scenes : list Scene :=
  [ mkScene (PStr "Mina found a kite.") (PStr "a kite, a meadow") (7 # 2);
    mkScene (PStr "The kite flew to the moon.") (PStr "a moon, a kite") 10 ].

(** * Properties *)

(** ** Numbers *)

Lemma Qltb_lt (a b : Q) : Qltb a b = true <-> (a < b)%Q.
Proof.
  unfold Qltb. destruct (Qle_bool b a) eqn:E; simpl.
  - apply Qle_bool_iff in E. split; [discriminate | intros L; exfalso; lra].
  - split; [intros _ | reflexivity].
    destruct (Qlt_le_dec a b) as [L | L]; [exact L |].
    apply Qle_bool_iff in L. congruence.
Qed.

Lemma Qltb_ge (a b : Q) : Qltb a b = false <-> (b <= a)%Q.
Proof.
  unfold Qltb. destruct (Qle_bool b a) eqn:E; simpl.
  - apply Qle_bool_iff in E. tauto.
  - split; [discriminate | intros L]. apply Qle_bool_iff in L. congruence.
Qed.

Ltac case_Qltb :=
  repeat match goal with
  | |- context [Qltb ?a ?b] =>
      lazymatch a with context [Qltb _ _] => fail | _ => idtac end;
      lazymatch b with context [Qltb _ _] => fail | _ => idtac end;
      let E := fresh "E" in
      destruct (Qltb a b) eqn:E;
      [apply Qltb_lt in E | apply Qltb_ge in E]
  end.

Lemma py_max_ge_l (a b : Q) : (a <= py_max a b)%Q.
Proof. unfold py_max. case_Qltb; lra. Qed.

Lemma py_max_ge_r (a b : Q) : (b <= py_max a b)%Q.
Proof. unfold py_max. case_Qltb; lra. Qed.

Lemma py_max_Qmax (a b : Q) : (py_max a b == Qmax a b)%Q.
Proof.
  unfold py_max.
  destruct (Q.max_spec a b) as [[L E] | [L E]];
    rewrite E; clear E; case_Qltb; try reflexivity; lra.
Qed.

Lemma clamp_code_spec (x : Q) :
  (py_max (7 # 2) (py_min 10 x) == spec_clamp x (7 # 2) 10)%Q.
Proof. unfold py_max, py_min, spec_clamp. case_Qltb; lra. Qed.

Lemma clamp_code_bounds (x : Q) :
  (7 # 2 <= py_max (7 # 2) (py_min 10 x) <= 10)%Q.
Proof. unfold py_max, py_min. case_Qltb; lra. Qed.

Lemma base_duration_clamped (minutes num_scenes : Z) (d : Q) :
  base_duration minutes num_scenes = Ok d -> clamped_share minutes num_scenes d.
Proof.
  unfold base_duration, clamped_share.
  destruct (py_truediv (minutes * 60) num_scenes) as [x | e]; [| discriminate].
  intros [= <-]. exists x. split; [reflexivity |].
  split; [apply clamp_code_spec | apply clamp_code_bounds].
Qed.

Lemma base_duration_defined (minutes num_scenes : Z) :
  num_scenes <> 0%Z -> exists d, base_duration minutes num_scenes = Ok d.
Proof.
  intros N. unfold base_duration, py_truediv.
  destruct (Z.eqb_spec num_scenes 0); [contradiction | eauto].
Qed.

(** ** Lists *)

Lemma length_insert_before_last {A} (x : A) (l : list A) :
  length (py_insert_before_last x l) = S (length l).
Proof. induction l as [| y [| z l'] IH]; simpl in *; auto. Qed.

Lemma length_pad_beats (n : Z) (beats : list beat) :
  Z.of_nat (length (pad_beats n beats)) = Z.max (Z.of_nat (length beats)) n.
Proof.
  funelim (pad_beats n beats).
  - rewrite H, length_insert_before_last. lia.
  - lia.
Qed.

Lemma length_slice_to {A} (l : list A) (n : Z) :
  (0 <= n)%Z -> Z.of_nat (length (py_slice_to l n)) = Z.min n (Z.of_nat (length l)).
Proof.
  intros N. unfold py_slice_to.
  destruct (Z.ltb_spec n 0); [lia |].
  rewrite length_take. lia.
Qed.

Lemma length_initial_beats (title theme moral : string) :
  length (initial_beats title theme moral) = 8%nat.
Proof. reflexivity. Qed.

(** The beats the deterministic engine turns into scenes number exactly
    [num_scenes], whenever that is not negative. *)
Lemma length_story_beats (title theme moral : string) (n : Z) :
  (0 <= n)%Z ->
  Z.of_nat (length (py_slice_to (pad_beats n (initial_beats title theme moral)) n)) = n.
Proof.
  intros N. rewrite length_slice_to by exact N.
  rewrite length_pad_beats, length_initial_beats. lia.
Qed.

Lemma slice_to_zero {A} (l : list A) : py_slice_to l 0 = [].
Proof. reflexivity. Qed.

(** ** The monad *)

Section Monad.
Context `{PyRandom}.

Lemma bind_ok {A B} (c : M A) (k : A -> M B) w b w' :
  bind c k w = (Ok b, w') ->
  exists a w1, c w = (Ok a, w1) /\ k a w1 = (Ok b, w').
Proof.
  unfold bind. destruct (c w) as [[a | e] w1]; [eauto | discriminate].
Qed.

Lemma bind_run {A B} (c : M A) (k : A -> M B) w a w1 :
  c w = (Ok a, w1) -> bind c k w = k a w1.
Proof. unfold bind. intros ->. reflexivity. Qed.

Lemma bind_raise {A B} (c : M A) (k : A -> M B) w e w1 :
  c w = (Raise e, w1) -> bind c k w = (Raise e, w1).
Proof. unfold bind. intros ->. reflexivity. Qed.

Lemma lift_ok {A} (r : res A) w a w' :
  lift r w = (Ok a, w') -> r = Ok a /\ w' = w.
Proof. unfold lift. intros [= -> ->]. auto. Qed.

Lemma for_each_length {A B} (body : A -> M B) l w bs w' :
  for_each body l w = (Ok bs, w') -> length bs = length l.
Proof.
  revert w bs w'. induction l as [| a l IH]; simpl; intros w bs w' E.
  - injection E as <- _. reflexivity.
  - apply bind_ok in E as (b & w1 & _ & E).
    apply bind_ok in E as (bs' & w2 & E & R).
    injection R as <- _. simpl. f_equal. exact (IH _ _ _ E).
Qed.

(** What every round of a loop establishes holds of the list it builds,
    element by element and in order. *)
Lemma for_each_Forall2 {A B} (P : A -> B -> Prop) (body : A -> M B) l :
  (forall a w b w', In a l -> body a w = (Ok b, w') -> P a b) ->
  forall w bs w', for_each body l w = (Ok bs, w') -> Forall2 P l bs.
Proof.
  induction l as [| a l IH]; simpl; intros HP w bs w' E.
  - injection E as <- _. constructor.
  - apply bind_ok in E as (b & w1 & Eb & E).
    apply bind_ok in E as (bs' & w2 & E & R).
    injection R as <- _. constructor; eauto.
Qed.

(** A loop whose body always succeeds always succeeds. *)
Lemma for_each_total {A B} (P : B -> Prop) (I : World -> World -> Prop)
    (body : A -> M B) :
  (forall w, I w w) ->
  (forall w1 w2 w3, I w1 w2 -> I w2 w3 -> I w1 w3) ->
  (forall a w, exists b w', body a w = (Ok b, w') /\ P b /\ I w w') ->
  forall l w, exists bs w',
    for_each body l w = (Ok bs, w') /\ length bs = length l /\ Forall P bs /\ I w w'.
Proof.
  intros Irefl Itrans Hbody l.
  induction l as [| a l IH]; simpl; intros w.
  - exists [], w. repeat split; auto.
  - destruct (Hbody a w) as (b & w1 & Eb & Pb & I1).
    destruct (IH w1) as (bs & w2 & Ebs & L & F & I2).
    exists (b :: bs), w2.
    rewrite (bind_run _ _ _ _ _ Eb), (bind_run _ _ _ _ _ Ebs).
    repeat split; simpl; eauto.
Qed.

Lemma rng_only_ret {A} (a : A) : rng_only (ret a).
Proof. intros w1 w2 E. simpl. auto. Qed.

Lemma rng_only_lift {A} (r : res A) : rng_only (lift r).
Proof. intros w1 w2 E. simpl. auto. Qed.

Lemma rng_only_bind {A B} (c : M A) (k : A -> M B) :
  rng_only c -> (forall a, rng_only (k a)) -> rng_only (bind c k).
Proof.
  intros Hc Hk w1 w2 E. unfold bind.
  destruct (Hc w1 w2 E) as [E1 E2].
  destruct (c w1) as [r1 v1], (c w2) as [r2 v2]. simpl in *. subst r2.
  destruct r1 as [a | e]; [apply Hk; exact E2 | simpl; auto].
Qed.

Lemma rng_only_choice {A} (seq : list A) : rng_only (py_random_choice seq).
Proof.
  intros w1 w2 E. unfold py_random_choice.
  destruct seq as [| d seq']; [simpl; auto |].
  rewrite E. destruct (randbelow _ _) as [i s]. simpl. auto.
Qed.

Lemma rng_only_for_each {A B} (body : A -> M B) (l : list A) :
  (forall a, rng_only (body a)) -> rng_only (for_each body l).
Proof.
  intros Hb. induction l as [| a l IH]; simpl.
  - apply rng_only_ret.
  - apply rng_only_bind; [apply Hb | intros b].
    apply rng_only_bind; [apply IH | intros bs]. apply rng_only_ret.
Qed.

(** [random.choice] on a non-empty list returns one of its elements. *)
Lemma random_choice_In {A} (seq : list A) w :
  seq <> [] -> exists a w', py_random_choice seq w = (Ok a, w') /\ In a seq
                            /\ w_dirs w' = w_dirs w /\ w_trace w' = w_trace w.
Proof.
  intros N. unfold py_random_choice. destruct seq as [| d seq']; [contradiction |].
  pose proof (randbelow_lt (length (d :: seq')) (w_rng w)) as L.
  destruct (randbelow _ _) as [i s]. simpl in L.
  eexists _, _. split; [reflexivity |]. split; [| auto].
  apply nth_In. simpl. lia.
Qed.
End Monad.

(** ** The deterministic story engine *)

Section RuleBased.
Context `{PyRandom} `{PyStr}.

Lemma scene_of_beat_ok title theme minutes n d :
  base_duration minutes n = Ok d ->
  forall b w, exists sc w',
    scene_of_beat title theme minutes n b w = (Ok sc, w')
    /\ duration sc = d /\ same_outside w w'.
Proof.
  intros D b w. unfold scene_of_beat.
  repeat match goal with
  | |- context [bind (py_random_choice ?l) ?k ?w0] =>
      let a := fresh "a" in let w1 := fresh "w" in
      let E := fresh "E" in let Hd := fresh "Hd" in let Ht := fresh "Ht" in
      destruct (random_choice_In l w0 ltac:(discriminate))
        as (a & w1 & E & _ & Hd & Ht);
      rewrite (bind_run _ _ _ _ _ E)
  end.
  rewrite D. unfold lift, bind, ret.
  eexists _, _. split; [reflexivity |]. split; [reflexivity |].
  unfold same_outside. split; congruence.
Qed.

Lemma scene_of_beat_rng_only title theme minutes n b :
  rng_only (scene_of_beat title theme minutes n b).
Proof.
  unfold scene_of_beat.
  repeat (apply rng_only_bind; [apply rng_only_choice | intros ?]).
  apply rng_only_bind; [apply rng_only_lift | intros ?]. apply rng_only_ret.
Qed.

(** The engine never fails; it leaves the file system and the log alone. *)
Lemma rule_based_returns title age theme moral minutes n w :
  exists t scenes w',
    generate_story_rule_based title age theme moral minutes n w = (Ok (t, scenes), w')
    /\ length scenes
       = length (py_slice_to (pad_beats n (initial_beats title theme moral)) n)
    /\ Forall (fun sc => clamped_share minutes n (duration sc)) scenes
    /\ same_outside w w'.
Proof.
  unfold generate_story_rule_based.
  set (beats := py_slice_to _ n).
  unfold bind at 1. unfold py_random_seed.
  set (w0 := mkWorld _ _ _ _).
  assert (S0 : same_outside w w0) by (split; reflexivity).
  destruct (Z.eq_dec n 0%Z) as [-> | N].
  - subst beats. rewrite slice_to_zero. simpl.
    eexists _, _, _. split; [reflexivity |]. repeat split; auto; apply S0.
  - destruct (base_duration_defined minutes n N) as [d D].
    destruct (for_each_total (fun sc => duration sc = d) same_outside
                (scene_of_beat title theme minutes n)) with (l := beats) (w := w0)
      as (scenes & w' & E & L & F & S1).
    + intros ?. split; reflexivity.
    + intros w1 w2 w3 [A1 A2] [B1 B2]. split; congruence.
    + intros b w1. apply scene_of_beat_ok. exact D.
    + rewrite (bind_run _ _ _ _ _ E). unfold ret.
      eexists _, _, _. split; [reflexivity |]. split; [exact L |]. split.
      * eapply Forall_impl; [exact F |]. simpl. intros sc ->.
        apply base_duration_clamped. exact D.
      * destruct S0, S1. split; congruence.
Qed.
End RuleBased.

(** ** The Ollama-backed story engine *)

Lemma for_each_res_Forall {A B} (P : B -> Prop) (body : A -> res B) (l : list A) bs :
  (forall a b, body a = Ok b -> P b) ->
  for_each_res body l = Ok bs -> Forall P bs /\ length bs = length l.
Proof.
  intros HP. revert bs. induction l as [| a l IH]; simpl; intros bs E.
  - injection E as <-. split; [constructor | reflexivity].
  - destruct (body a) as [b | e] eqn:Eb; [| discriminate].
    destruct (for_each_res body l) as [bs' | e]; [| discriminate].
    injection E as <-. destruct (IH bs' eq_refl) as [F L].
    split; [constructor; eauto | simpl; congruence].
Qed.

Lemma Forall_slice_to {A} (P : A -> Prop) (l : list A) (n : Z) :
  Forall P l -> Forall P (py_slice_to l n).
Proof. intros F. unfold py_slice_to. destruct (n <? 0)%Z; apply Forall_take, F. Qed.

Lemma llm_scenes_clamped data minutes n scenes :
  llm_scenes data minutes n = Ok scenes ->
  Forall (fun sc => clamped_share minutes n (duration sc)) scenes.
Proof.
  unfold llm_scenes.
  destruct (py_get data "scenes" (PList [])) as [raw | e]; [| discriminate].
  destruct (py_iter raw) as [items | e]; [| discriminate].
  intros E. eapply for_each_res_Forall; [| exact E].
  intros s sc. simpl.
  destruct (py_get s "text" (PStr "")) as [t | e]; [| discriminate].
  destruct (py_get s "prompt" _) as [p | e]; [| discriminate].
  destruct (base_duration minutes n) as [d | e] eqn:D; [| discriminate].
  intros [= <-]. simpl. apply base_duration_clamped, D.
Qed.

(** A story parsed from the service holds the first [num_scenes] of the
    scenes the service sent, and there was at least one. *)
Lemma parse_llm_story_ok env resp title minutes n t scenes :
  parse_llm_story env resp title minutes n = Ok (t, scenes) ->
  exists data all,
    py_json_loads env resp = Ok data
    /\ llm_scenes data minutes n = Ok all
    /\ all <> [] /\ scenes = py_slice_to all n.
Proof.
  unfold parse_llm_story.
  destruct (py_json_loads env resp) as [data | e] eqn:J; [| discriminate].
  destruct (llm_scenes data minutes n) as [all | e] eqn:L; [| discriminate].
  destruct all as [| sc all']; [discriminate |].
  destruct (py_get data "title" (PStr title)) as [t' | e]; [| discriminate].
  intros [= <- <-]. exists data, (sc :: all').
  split; [reflexivity |]. split; [exact L |]. split; [discriminate | reflexivity].
Qed.

Section Ollama.
Context `{PyRandom} `{PyStr}.
Variable env : Env.
Variables (title : string) (age : Z) (theme moral : string) (minutes n : Z) (model : string).

Local Abbreviation payload := (ollama_payload title age theme moral minutes n model).
Local Abbreviation url := (ollama_url env).

(** Once the service has answered with a JSON object, the engine returns
    the parsed story, or else the deterministic story. *)
Lemma ollama_after_transport w r body resp :
  requests_installed env = true ->
  http_post env url payload = Ok r ->
  status_ok r = true ->
  body_json r = Ok body ->
  py_get body "response" (PStr "{}") = Ok resp ->
  generate_story_ollama env title age theme moral minutes n model w
  = match parse_llm_story env resp title minutes n with
    | Ok v => (Ok v, posted url w)
    | Raise _ => generate_story_rule_based title age theme moral minutes n (posted url w)
    end.
Proof.
  intros I P S B R. unfold generate_story_ollama. rewrite I. simpl.
  unfold requests_post, bind, emit, lift, try_except, raise_for_status.
  unfold ollama_url in *. rewrite P, S, B, R.
  destruct (parse_llm_story env resp title minutes n); reflexivity.
Qed.

(** A failure to reach the service, or an answer that is no JSON object,
    goes to the caller. *)
Lemma ollama_transport_failure w :
  requests_installed env = true ->
  (exists e, http_post env url payload = Raise e)
  \/ (exists r, http_post env url payload = Ok r /\
        (status_ok r = false
         \/ (exists e, body_json r = Raise e)
         \/ (exists body e, body_json r = Ok body
                            /\ py_get body "response" (PStr "{}") = Raise e))) ->
  exists e, generate_story_ollama env title age theme moral minutes n model w
            = (Raise e, posted url w).
Proof.
  intros I F. unfold generate_story_ollama. rewrite I. simpl.
  unfold requests_post, bind, emit, lift, try_except, raise_for_status.
  unfold posted, ollama_url in *.
  destruct F as [[e P] | (r & P & [S | [[e B] | (body & e & B & R)]])]; rewrite P.
  - eauto.
  - rewrite S. eauto.
  - destruct (status_ok r); [rewrite B |]; eauto.
  - destruct (status_ok r); [rewrite B, R |]; eauto.
Qed.

(** Whatever story the engine returns was parsed from the service or
    made by the deterministic engine. *)
Lemma ollama_ok_inv w t scenes w' :
  generate_story_ollama env title age theme moral minutes n model w
  = (Ok (t, scenes), w') ->
  (exists resp, parse_llm_story env resp title minutes n = Ok (t, scenes))
  \/ generate_story_rule_based title age theme moral minutes n (posted url w)
     = (Ok (t, scenes), w').
Proof.
  unfold generate_story_ollama.
  destruct (requests_installed env); simpl; [| discriminate].
  unfold requests_post, bind, emit, lift, try_except, raise_for_status.
  unfold posted, ollama_url in *.
  destruct (http_post env _ payload) as [r | e]; [| discriminate].
  destruct (status_ok r); [| discriminate].
  destruct (body_json r) as [body | e]; [| discriminate].
  destruct (py_get body "response" (PStr "{}")) as [resp | e]; [| discriminate].
  destruct (parse_llm_story env resp title minutes n) as [v | e] eqn:E.
  - intros [= -> <-]. left. eauto.
  - intros G. right. exact G.
Qed.
End Ollama.

(** The story step of the UI always ends with a story: what the Ollama
    engine raises is caught there and answered by the deterministic engine. *)
Lemma ui_story_returns `{PyRandom} `{PyStr} (env : Env) (story_engine : string)
    (title : string) (age : Z) (theme moral : string) (minutes n : Z)
    (ollama_model : string) (w : World) :
  exists story w',
    ui_story env story_engine title age theme moral minutes n ollama_model w
    = (Ok story, w').
Proof.
  unfold ui_story. destruct (String.eqb story_engine "Ollama (local LLM)").
  - unfold try_except.
    destruct (generate_story_ollama env title age theme moral minutes n ollama_model w)
      as [[story | e] w1]; [eauto |].
    unfold bind, emit.
    match goal with |- context [generate_story_rule_based _ _ _ _ _ _ ?w2] =>
      destruct (rule_based_returns title age theme moral minutes n w2)
        as (t & scenes & w' & -> & _) end.
    eauto.
  - destruct (rule_based_returns title age theme moral minutes n w)
      as (t & scenes & w' & -> & _).
    eauto.
Qed.

(** ** Claims about the story engines *)

(** C3, as amended. When the story service has answered (HTTP success, a
    JSON object as body) and the story text in the answer does not parse,
    or its scene list is missing, malformed or empty, the Ollama-backed
    engine returns what the deterministic engine returns for the same
    inputs, and no error. When the request itself raises, the exception
    goes to the caller. *)
Theorem ollama_falls_back_on_unusable_story `{PyRandom} `{PyStr} (env : Env)
    (title : string) (age : Z) (theme moral : string) (minutes n : Z) (model : string)
    (w : World) :
  requests_installed env = true ->
  let url := ollama_url env in
  let payload := ollama_payload title age theme moral minutes n model in
  (forall r body resp,
     http_post env url payload = Ok r ->
     status_ok r = true ->
     body_json r = Ok body ->
     py_get body "response" (PStr "{}") = Ok resp ->
     (exists e, py_json_loads env resp = Raise e)
     \/ (exists data, py_json_loads env resp = Ok data
                      /\ ((exists e, llm_scenes data minutes n = Raise e)
                          \/ llm_scenes data minutes n = Ok [])) ->
     generate_story_ollama env title age theme moral minutes n model w
     = generate_story_rule_based title age theme moral minutes n (posted url w)
     /\ exists story w',
          generate_story_ollama env title age theme moral minutes n model w
          = (Ok story, w'))
  /\ (forall e,
        http_post env url payload = Raise e ->
        generate_story_ollama env title age theme moral minutes n model w
        = (Raise e, posted url w)).
Proof.
  intros I url payload. split.
  - intros r body resp P S B R Bad.
    rewrite (ollama_after_transport env title age theme moral minutes n model
               w r body resp I P S B R).
    assert (E : exists e, parse_llm_story env resp title minutes n = Raise e).
    { unfold parse_llm_story.
      destruct Bad as [[e ->] | (data & -> & [[e ->] | ->])]; eauto. }
    destruct E as [e ->]. split; [reflexivity |].
    destruct (rule_based_returns title age theme moral minutes n (posted url w))
      as (t & scenes & w' & E & _).
    exists (t, scenes), w'. exact E.
  - intros e P. unfold generate_story_ollama. rewrite I. simpl.
    unfold requests_post, bind, emit, lift. fold url payload.
    unfold url, payload, ollama_url in *. rewrite P. reflexivity.
Qed.

Lemma ollama_falls_back_on_unusable_story_witness :
  generate_story_ollama (ollama_env "Sorry, no story today.")
    "Mina" 5 "kindness" "kindness" 2 6 "llama3.1:8b" world0
  = generate_story_rule_based "Mina" 5 "kindness" "kindness" 2 6
      (posted (ollama_url (ollama_env "Sorry, no story today.")) world0).
Proof.
  refine (proj1 (proj1 (ollama_falls_back_on_unusable_story
            (ollama_env "Sorry, no story today.")
            "Mina" 5 "kindness" "kindness" 2 6 "llama3.1:8b" world0 eq_refl)
          _ _ (PStr "Sorry, no story today.") eq_refl eq_refl eq_refl _ _)).
  - vm_compute. reflexivity.
  - left. exists JSONDecodeError. reflexivity.
Defined.

(** C3 as stated fails: with the service unreachable the POST raises, and
    the engine raises with it instead of returning the deterministic story. *)
Lemma ollama_transport_failure_propagates :
  http_post offline_env (ollama_url offline_env)
    (ollama_payload "Mina" 5 "kindness" "kindness" 2 6 "llama3.1:8b")
  = Raise ConnectionError
  /\ fst (generate_story_ollama offline_env
            "Mina" 5 "kindness" "kindness" 2 6 "llama3.1:8b" world0)
     = Raise ConnectionError
  /\ fst (generate_story_ollama offline_env
            "Mina" 5 "kindness" "kindness" 2 6 "llama3.1:8b" world0)
     <> fst (generate_story_rule_based "Mina" 5 "kindness" "kindness" 2 6 world0).
Proof.
  split; [reflexivity |].
  assert (E : fst (generate_story_ollama offline_env
                     "Mina" 5 "kindness" "kindness" 2 6 "llama3.1:8b" world0)
              = Raise ConnectionError) by (vm_compute; reflexivity).
  split; [exact E |]. rewrite E.
  destruct (rule_based_returns "Mina" 5 "kindness" "kindness" 2 6 world0)
    as (t & scenes & w' & -> & _).
  simpl. discriminate.
Qed.

(** C4, as amended. For a scene count that is not negative, the
    deterministic engine returns exactly that many scenes, and the
    Ollama-backed engine returns at most that many: it truncates a longer
    answer of the service but does not pad a shorter one. *)
Theorem story_length `{PyRandom} `{PyStr} (env : Env)
    (title : string) (age : Z) (theme moral : string) (minutes n : Z) (model : string)
    (w : World) :
  (0 <= n)%Z ->
  (exists t scenes w',
     generate_story_rule_based title age theme moral minutes n w = (Ok (t, scenes), w')
     /\ Z.of_nat (length scenes) = n)
  /\ (forall t scenes w',
        generate_story_ollama env title age theme moral minutes n model w
        = (Ok (t, scenes), w') ->
        (Z.of_nat (length scenes) <= n)%Z).
Proof.
  intros N. split.
  - destruct (rule_based_returns title age theme moral minutes n w)
      as (t & scenes & w' & E & L & _).
    exists t, scenes, w'. split; [exact E |].
    rewrite L. apply length_story_beats, N.
  - intros t scenes w' E.
    apply ollama_ok_inv in E as [[resp P] | R].
    + apply parse_llm_story_ok in P as (data & all & _ & _ & _ & ->).
      rewrite length_slice_to by exact N. lia.
    + destruct (rule_based_returns title age theme moral minutes n
                  (posted (ollama_url env) w)) as (t' & scenes' & w'' & E & L & _).
      rewrite E in R. injection R as _ <- _.
      rewrite L, length_story_beats by exact N. lia.
Qed.

Lemma story_length_witness :
  exists t scenes w',
    generate_story_rule_based "Mina" 5 "kindness" "kindness" 2 6 world0
    = (Ok (t, scenes), w')
    /\ Z.of_nat (length scenes) = 6%Z.
Proof.
  exact (proj1 (story_length offline_env "Mina" 5 "kindness" "kindness" 2 6
                  "llama3.1:8b" world0 ltac:(lia))).
Defined.

(** C4 as stated fails: asked for six scenes, a service that sends a
    single scene makes the Ollama-backed engine return a single scene. *)
Lemma ollama_returns_fewer_scenes :
  exists t sc w',
    generate_story_ollama (ollama_env "{...}")
      "Mina" 5 "kindness" "kindness" 2 6 "llama3.1:8b" world0
    = (Ok (t, [sc]), w')
    /\ length [sc] <> 6%nat.
Proof.
  eexists _, _, _. split; [vm_compute; reflexivity | discriminate].
Qed.

(** C5. Two calls of the deterministic engine with the same arguments
    return the same title and the same scenes (text, prompt and duration),
    whatever state the process, and in particular its global random
    generator, was in before each call. *)
Theorem rule_based_deterministic `{PyRandom} `{PyStr}
    (title : string) (age : Z) (theme moral : string) (minutes n : Z)
    (w1 w2 : World) :
  fst (generate_story_rule_based title age theme moral minutes n w1)
  = fst (generate_story_rule_based title age theme moral minutes n w2).
Proof.
  unfold generate_story_rule_based.
  assert (S : forall a (k : unit -> M (pyval * list Scene)) w,
             bind (py_random_seed a) k w
             = k tt (mkWorld _ (random_seed a) (w_dirs w) (w_trace w)))
    by reflexivity.
  rewrite !S.
  apply rng_only_bind; [| intros scenes; apply rng_only_ret | reflexivity].
  apply rng_only_for_each. intros b. apply scene_of_beat_rng_only.
Qed.

(** C6. Every scene either engine returns lasts
    [clamp(minutes*60/scene_count, 3.5, 10.0)] seconds, which lies between
    3.5 and 10; the deterministic engine always returns. *)
Theorem scene_durations_clamped `{PyRandom} `{PyStr} (env : Env)
    (title : string) (age : Z) (theme moral : string) (minutes n : Z) (model : string)
    (w : World) :
  (exists t scenes w',
     generate_story_rule_based title age theme moral minutes n w = (Ok (t, scenes), w')
     /\ Forall (fun sc => clamped_share minutes n (duration sc)) scenes)
  /\ (forall t scenes w',
        generate_story_ollama env title age theme moral minutes n model w
        = (Ok (t, scenes), w') ->
        Forall (fun sc => clamped_share minutes n (duration sc)) scenes).
Proof.
  split.
  - destruct (rule_based_returns title age theme moral minutes n w)
      as (t & scenes & w' & E & _ & F & _).
    exists t, scenes, w'. split; assumption.
  - intros t scenes w' E.
    apply ollama_ok_inv in E as [[resp P] | R].
    + apply parse_llm_story_ok in P as (data & all & _ & L & _ & ->).
      apply Forall_slice_to. eapply llm_scenes_clamped, L.
    + destruct (rule_based_returns title age theme moral minutes n
                  (posted (ollama_url env) w)) as (t' & scenes' & w'' & E & _ & F & _).
      rewrite E in R. injection R as _ <- _. exact F.
Qed.

Lemma scene_durations_clamped_witness :
  Forall (fun sc => clamped_share 2 6 (duration sc))
    [ mkScene (PStr "Mina flew her kite.") (PStr "a kite, a moon") 10 ].
Proof.
  refine (proj2 (scene_durations_clamped (ollama_env "{...}")
            "Mina" 5 "kindness" "kindness" 2 6 "llama3.1:8b" world0)
          (PStr "The Moon Kite") _ _ _).
  vm_compute. reflexivity.
Defined.

(** ** The illustration fallback *)

Lemma for_each_res_total {A B} (body : A -> res B) (l : list A) :
  (forall a, In a l -> exists b, body a = Ok b) ->
  exists bs, for_each_res body l = Ok bs.
Proof.
  induction l as [| a l IH]; simpl; intros T; [eauto |].
  destruct (T a) as [b ->]; [auto |].
  destruct IH as [bs ->]; [auto | eauto].
Qed.

Lemma gradient_lines_ok (width height : Z) :
  exists lines, gradient_lines width height = Ok lines.
Proof.
  unfold gradient_lines. apply for_each_res_total.
  intros y Hy. unfold range in Hy. apply in_map_iff in Hy as (k & <- & Hk).
  apply in_seq in Hk. unfold py_truediv.
  destruct (Z.eqb_spec height 0); [lia | eauto].
Qed.

Lemma py_int_scale (m a : Z) (b : positive) :
  py_int (Qmul_Z m (a # b)) = Z.quot (m * a) (Z.pos b).
Proof. reflexivity. Qed.

(** On a positive canvas the gradient, the frame and the bubble are drawn
    without error, on an image of the requested size. *)
Lemma fallback_background_ok (width height : Z) :
  (0 < width)%Z -> (0 < height)%Z ->
  exists img, fallback_background width height = Ok img
              /\ im_width img = width /\ im_height img = height.
Proof.
  intros W Hh. unfold fallback_background, image_new, bubble_box.
  destruct (Z.ltb_spec width 0); [lia |].
  destruct (Z.ltb_spec height 0); [lia |]. simpl.
  destruct (gradient_lines_ok width height) as [lines ->].
  rewrite !py_int_scale.
  unfold draw_rounded_rectangle.
  set (margin := Z.quot (Z.min width height * 3) 100).
  assert (M : (0 <= margin /\ 2 * margin <= Z.min width height)%Z).
  { subst margin. rewrite Z.quot_div_nonneg by lia.
    pose proof (Z.div_pos (Z.min width height * 3) 100 ltac:(lia) ltac:(lia)).
    pose proof (Z.mul_div_le (Z.min width height * 3) 100 ltac:(lia)). lia. }
  destruct (Z.ltb_spec (width - margin) margin); [lia |].
  destruct (Z.ltb_spec (height - margin) margin); [lia |].
  assert (Bw : (0 <= Z.quot (width * 86) 100)%Z) by (apply Z.quot_pos; lia).
  assert (Bh : (0 <= Z.quot (height * 18) 100)%Z) by (apply Z.quot_pos; lia).
  match goal with |- context [(?x1 <? ?x0)%Z] =>
    destruct (Z.ltb_spec x1 x0); [lia |] end.
  match goal with |- context [(?y1 <? ?y0)%Z] =>
    destruct (Z.ltb_spec y1 y0); [lia |] end.
  eexists. split; [reflexivity |]. simpl. auto.
Qed.

(** The fallback succeeds, with the requested size, when the first clause
    of the prompt has no line break and the font in use has a size. *)
Lemma fallback_illustration_single_line (env : Env) (p : string) (width height : Z) :
  (0 < width)%Z -> (0 < height)%Z ->
  contains_char (ascii_of_nat 10) (first_clause p) = false ->
  (exists size, bubble_font env (snd (bubble_box width height)) = FreeTypeFont size) ->
  exists img, fallback_illustration env (PStr p) width height = Ok img
              /\ im_width img = width /\ im_height img = height.
Proof.
  intros W Hh L [size F]. unfold fallback_illustration.
  destruct (fallback_background_ok width height W Hh) as (img & -> & Ew & Eh).
  destruct (bubble_box width height) as [[[bx by_] bubble_w] bubble_h]. simpl in F.
  unfold textlength. rewrite L, F. simpl.
  eexists. split; [reflexivity |]. simpl. auto.
Qed.

(** It raises when that clause has a line break. *)
Lemma fallback_illustration_multiline (env : Env) (p : string) (width height : Z) :
  (0 < width)%Z -> (0 < height)%Z ->
  contains_char (ascii_of_nat 10) (first_clause p) = true ->
  fallback_illustration env (PStr p) width height
  = Raise (ValueError "can't measure length of multiline text").
Proof.
  intros W Hh L. unfold fallback_illustration.
  destruct (fallback_background_ok width height W Hh) as (img & -> & _).
  destruct (bubble_box width height) as [[[bx by_] bubble_w] bubble_h].
  unfold textlength. rewrite L. reflexivity.
Qed.

(** With no image service configured, [make_image] is the fallback. *)
Lemma make_image_unconfigured `{PyRandom} (env : Env) (prompt : pyval)
    (width height : Z) (w : World) :
  truthy (SD_API env) = false ->
  make_image env prompt (width, height) w
  = (fallback_illustration env prompt width height, w).
Proof.
  intros U. unfold make_image, try_except, sd_txt2img. rewrite U. reflexivity.
Qed.

(** C7, where the code departs from it. A prompt whose first clause holds
    a line break makes the fallback raise [ValueError] from
    [ImageDraw.textlength], and [make_image], with no image service
    configured, raises with it: the fallback is called from the [except]
    handler and nothing catches what it raises. *)
Theorem fallback_illustration_raises_on_line_break :
  let prompt := PStr ("Mina and her kite" ++ LF ++ "under the moon, soft light") in
  fallback_illustration offline_env prompt 1080 1920
  = Raise (ValueError "can't measure length of multiline text")
  /\ make_image offline_env prompt INSTAGRAM_RES world0
     = (Raise (ValueError "can't measure length of multiline text"), world0).
Proof.
  intros prompt.
  assert (E : fallback_illustration offline_env prompt 1080 1920
              = Raise (ValueError "can't measure length of multiline text")).
  { apply fallback_illustration_multiline; [lia | lia | reflexivity]. }
  split; [exact E |].
  unfold INSTAGRAM_RES. rewrite make_image_unconfigured by reflexivity.
  rewrite E. reflexivity.
Qed.

(** ** Narration *)

Lemma path_head_no_sep (p : string) : has_sep p = false -> path_head p = "".
Proof. destruct p as [| c r]; simpl; [reflexivity | intros ->; reflexivity]. Qed.

Lemma rstrip_sep_empty (p : string) : rstrip_sep p = "" -> all_seps p = true.
Proof.
  induction p as [| c r IH]; simpl; [reflexivity |].
  destruct (is_char "/" c); simpl; [| discriminate].
  destruct (rstrip_sep r) eqn:R; simpl; [intros _; auto | discriminate].
Qed.

(** A path has an empty directory part exactly when it holds no
    separator: a bare file name. *)
Lemma dirname_empty_iff (p : string) :
  os_path_dirname p = "" <-> has_sep p = false.
Proof.
  unfold os_path_dirname. split.
  - destruct (has_sep p) eqn:S; [| reflexivity]. intros D. exfalso.
    destruct p as [| c r]; [discriminate |].
    cbn [path_head] in D. rewrite S in D.
    set (head := String c (path_head r)) in *.
    assert (E : str_empty head = false) by reflexivity. rewrite E in D.
    destruct (all_seps head) eqn:A; cbn [negb andb] in D; [discriminate |].
    apply rstrip_sep_empty in D. congruence.
  - intros S. rewrite (path_head_no_sep p S). reflexivity.
Qed.

(** C10. Whatever the engine, [synthesize] on a bare file name raises
    [FileNotFoundError] from the directory-creation step and leaves the
    process state, hence the log of engine calls, as it was: no TTS engine
    has been invoked. It can only succeed on a path with a directory part
    that [os.makedirs] accepts. *)
Theorem synthesize_needs_directory `{PyRandom} (env : Env) (text : pyval)
    (out_wav engine : string) (voice_hint : option string) (w : World) :
  (has_sep out_wav = false ->
     os_path_dirname out_wav = ""
     /\ synthesize env text out_wav engine voice_hint w = (Raise FileNotFoundError, w))
  /\ (forall w',
        synthesize env text out_wav engine voice_hint w = (Ok tt, w') ->
        has_sep out_wav = true
        /\ os_path_dirname out_wav <> ""
        /\ exists w1, os_makedirs env (os_path_dirname out_wav) true w = (Ok tt, w1)).
Proof.
  split.
  - intros S. apply dirname_empty_iff in S as D. split; [exact D |].
    unfold synthesize. rewrite D. reflexivity.
  - intros w' E. unfold synthesize in E.
    apply bind_ok in E as ([] & w1 & Mk & _).
    assert (D : os_path_dirname out_wav <> "").
    { intros D. rewrite D in Mk. discriminate. }
    split; [| split; [exact D | eauto]].
    destruct (has_sep out_wav) eqn:S; [reflexivity |].
    apply dirname_empty_iff in S. contradiction.
Qed.

Lemma synthesize_needs_directory_witness :
  (os_path_dirname "out.wav" = ""
   /\ synthesize offline_env (PStr "Once upon a time.") "out.wav" "eSpeak (offline)" None world0
      = (Raise FileNotFoundError, world0))
  /\ has_sep "outputs/mina/scene_01.wav" = true.
Proof.
  split.
  - exact (proj1 (synthesize_needs_directory offline_env (PStr "Once upon a time.")
                    "out.wav" "eSpeak (offline)" None world0) eq_refl).
  - refine (proj1 (proj2 (synthesize_needs_directory offline_env (PStr "Once upon a time.")
                            "outputs/mina/scene_01.wav" "eSpeak (offline)" None world0)
                     _ _)).
    vm_compute. reflexivity.
Defined.

(** ** Video assembly *)

Lemma last_cons_cumsum (acc x : Q) (ds : list Q) :
  (List.last (acc :: cumsum acc ds) x == acc + Qsum ds)%Q.
Proof.
  revert acc. induction ds as [| d r IH]; intros acc.
  - simpl. lra.
  - change (List.last (acc :: cumsum acc (d :: r)) x)
      with (List.last ((acc + d)%Q :: cumsum (acc + d)%Q r) x).
    rewrite IH. simpl. lra.
Qed.

Lemma contiguous_end_Qeq (t : Q) clips (e e' : Q) :
  (e == e')%Q -> contiguous t clips e -> contiguous t clips e'.
Proof.
  intros E. revert t. induction clips as [| c r IH]; simpl; intros t C.
  - rewrite C. exact E.
  - destruct C as [S C]. split; [exact S | apply IH, C].
Qed.

(** Clips started at the running totals of their durations follow one
    another without gap or overlap, up to the grand total. *)
Lemma contiguous_start_all (clips : list Clip) (acc : Q) :
  contiguous acc (start_all clips (acc :: cumsum acc (map c_duration clips)))
             (acc + Qsum (map c_duration clips)).
Proof.
  revert acc. induction clips as [| c r IH]; intros acc.
  - simpl. lra.
  - simpl. split; [reflexivity |].
    eapply contiguous_end_Qeq; [| apply IH]. lra.
Qed.

Lemma start_all_keeps (clips : list Clip) (tt : list Q) :
  (length clips <= length tt)%nat ->
  Forall2 (fun c c' => exists t, c' = with_start c t) clips (start_all clips tt).
Proof.
  revert tt. induction clips as [| c r IH]; intros tt L.
  - constructor.
  - destruct tt as [| t tt]; simpl in L; [lia |].
    unfold start_all. simpl. constructor; [eauto | apply IH; lia].
Qed.

Lemma length_cumsum (acc : Q) (ds : list Q) : length (cumsum acc ds) = length ds.
Proof. revert acc. induction ds as [| d r IH]; simpl; intros acc; auto. Qed.

(** What [concatenate_videoclips] makes of a non-empty list of clips. *)
Lemma concatenate_videoclips_ok (clips : list Clip) :
  clips <> [] ->
  exists tl, concatenate_videoclips clips = Ok tl
    /\ Forall2 (fun c c' => exists t, c' = with_start c t) clips (t_clips tl)
    /\ (t_duration tl == Qsum (map c_duration clips))%Q
    /\ contiguous 0 (t_clips tl) (t_duration tl).
Proof.
  intros N. destruct clips as [| c r]; [contradiction |].
  eexists. split; [reflexivity |]. cbn [t_clips t_duration].
  set (clips := c :: r). split; [| split].
  - apply start_all_keeps. simpl. rewrite length_cumsum, length_map. lia.
  - rewrite last_cons_cumsum. lra.
  - eapply contiguous_end_Qeq; [| apply contiguous_start_all].
    rewrite last_cons_cumsum. reflexivity.
Qed.

Section Video.
Context `{PyRandom}.
Variable env : Env.

(** The loop body of [build_video] never hands back a clip: whatever the
    image and narration steps did, line 298 ends it. *)
Lemma scene_clip_raises resolution workdir voice_hint tts_engine isc w :
  exists e w',
    scene_clip env resolution workdir voice_hint tts_engine isc w = (Raise e, w').
Proof.
  destruct isc as [i sc]. unfold scene_clip.
  unfold bind at 1. destruct (make_image _ _ _ w) as [[img | e] w1]; [| eauto].
  unfold bind at 1. unfold emit at 1.
  unfold bind at 1. unfold lift at 1. destruct (image_save _ _) as [[] | e]; [| eauto].
  unfold bind at 1. destruct (synthesize _ _ _ _ _ _) as [[[] | e] w2]; [| eauto].
  unfold bind at 1. unfold lift at 1.
  destruct (audio_file_duration _ _) as [d | e]; [| eauto].
  unfold bind at 1. simpl. eauto.
Qed.

(** With the picture saved, the narration written and the audio clip
    opened, what ends the loop body is the [AttributeError] of line 298. *)
Lemma scene_clip_attribute_error resolution workdir voice_hint tts_engine i sc
    w img w1 w2 d :
  make_image env (prompt sc) resolution w = (Ok img, w1) ->
  image_save env (scene_png workdir i) = Ok tt ->
  synthesize env (text sc) (scene_wav workdir i) tts_engine voice_hint
    (logged (EvSaved (scene_png workdir i)) w1) = (Ok tt, w2) ->
  audio_file_duration env (scene_wav workdir i) = Ok d ->
  scene_clip env resolution workdir voice_hint tts_engine (i, sc) w
  = (Raise AttributeError, w2).
Proof.
  intros I S N D. unfold scene_clip, scene_png, scene_wav in *.
  unfold bind at 1. rewrite I.
  unfold bind at 1. unfold emit at 1.
  unfold bind at 1. unfold lift at 1. rewrite S.
  unfold bind at 1. unfold logged in N. rewrite N.
  unfold bind at 1. unfold lift at 1. rewrite D.
  reflexivity.
Qed.

(** So no timeline is assembled from a scene, and [build_video] has no
    video to write. *)
Lemma build_timeline_raises scenes resolution out_path voice_hint tts_engine w :
  exists e w',
    build_timeline env scenes resolution out_path voice_hint tts_engine w = (Raise e, w').
Proof.
  unfold build_timeline. unfold bind at 1.
  destruct (os_makedirs env _ true w) as [[[] | e] w1]; [| eauto].
  destruct scenes as [| sc scenes].
  - simpl. unfold bind, ret, lift. simpl. eauto.
  - cbn [enumerate for_each]. unfold bind at 1. unfold bind at 1.
    destruct (scene_clip_raises resolution (video_workdir env out_path) voice_hint
                tts_engine (1%Z, sc) w1) as (e & w2 & ->).
    eauto.
Qed.

Lemma build_video_raises scenes resolution out_path voice_hint tts_engine w :
  exists e w',
    build_video env scenes resolution out_path voice_hint tts_engine w = (Raise e, w').
Proof.
  unfold build_video. unfold bind at 1.
  destruct (build_timeline_raises scenes resolution out_path voice_hint tts_engine w)
    as (e & w' & ->).
  eauto.
Qed.
End Video.

Lemma zoom_scale_linear (d : Q) : (0 < d)%Q -> linear_zoom (zoom_scale d) d.
Proof.
  intros P.
  assert (E : forall t, zoom_scale d t = Ok (1 + (zoom_end - 1) * (t / d))%Q).
  { intros t. unfold zoom_scale, py_fdiv.
    destruct (Qeq_bool d 0) eqn:Z; [| reflexivity].
    apply Qeq_bool_iff in Z. lra. }
  unfold linear_zoom, zoom_end. repeat split.
  - eexists. split; [apply E |]. unfold zoom_end. field. lra.
  - eexists. split; [apply E |]. unfold zoom_end. field. lra.
  - intros t. eexists. split; [apply E |]. unfold zoom_end. field. lra.
  - intros t1 t2 v1 v2 L E1 E2. rewrite E in E1, E2.
    injection E1 as <-. injection E2 as <-.
    assert (I : (0 < / d)%Q) by (apply Qinv_lt_0_compat, P).
    assert (M : (t1 / d < t2 / d)%Q) by (unfold Qdiv; apply Qmult_lt_r; assumption).
    unfold zoom_end. lra.
Qed.

(** ** Claims about the rendered clips and the timeline *)

(** C1. The first demo scene on the offline machine, for the Instagram
    target: its picture is drawn and saved, its narration is written and
    the audio clip opened (six seconds, against 3.5 requested), and then
    line 298 asks the image clip for [set_duration], which the MoviePy of
    line 43 does not have. The loop body raises [AttributeError]; no clip
    comes out, so nothing is shown for the six seconds that the maximum of
    the two durations asks for. *)
Theorem scene_clip_raises_at_set_duration :
  let sc := mkScene (PStr "Mina found a kite.") (PStr "a kite, a meadow") (7 # 2) in
  let workdir := video_workdir offline_env "outputs/mina_IG_9x16.mp4" in
  let run := scene_clip offline_env INSTAGRAM_RES workdir None "eSpeak (offline)"
               (1%Z, sc) world0 in
  audio_file_duration offline_env (scene_wav workdir 1) = Ok 6%Q
  /\ py_max (duration sc) 6 = 6%Q
  /\ clip_getattr "set_duration" = Raise AttributeError
  /\ fst run = Raise AttributeError
  /\ w_trace (snd run)
     = [ EvSaved (scene_png workdir 1); EvTTS "espeak" (scene_wav workdir 1) ].
Proof. vm_compute. repeat split; reflexivity. Qed.

(** C2. The two demo scenes on the offline machine: the loop of
    [build_video] stops in its first round, at line 298, with the
    [AttributeError] of the missing [set_duration]. The second scene is
    never touched, [concatenate_videoclips] is never called, and no
    timeline exists whose duration could be the sum of 6 and 10 seconds. *)
Theorem build_timeline_raises_before_concatenation :
  let workdir := video_workdir offline_env "outputs/mina_IG_9x16.mp4" in
  let run := build_timeline offline_env demo_scenes INSTAGRAM_RES
               "outputs/mina_IG_9x16.mp4" None "eSpeak (offline)" world0 in
  fst run = Raise AttributeError
  /\ w_trace (snd run)
     = [ EvSaved (scene_png workdir 1); EvTTS "espeak" (scene_wav workdir 1) ].
Proof. vm_compute. split; reflexivity. Qed.

(** C9. The two demo scenes for the YouTube target: [build_video] raises
    the [AttributeError] of line 298 before line 301 is reached, and the
    two methods line 301 itself asks for, [fx] and [resize], are missing
    from the clips of line 43's MoviePy as well. No clip carries a zoom, and
    no video file is written. *)
Theorem build_video_raises_before_zoom :
  let run := build_video offline_env demo_scenes YOUTUBE_RES
               "outputs/mina_YT_16x9.mp4" None "eSpeak (offline)" world0 in
  clip_getattr "fx" = Raise AttributeError
  /\ clip_getattr "resize" = Raise AttributeError
  /\ fst run = Raise AttributeError
  /\ ~ In (EvSaved "outputs/mina_YT_16x9.mp4") (w_trace (snd run)).
Proof.
  vm_compute. repeat split; try reflexivity.
  intros [E | [E | []]]; discriminate E.
Qed.

(** ** The render loop *)

Section Silent.
Context `{PyRandom}.

Lemma silent_same_trace {A} (c : M A) :
  (forall w, w_trace (snd (c w)) = w_trace w) -> silent c.
Proof.
  intros S w. exists []. rewrite S, app_nil_r. split; [reflexivity | constructor].
Qed.

Lemma silent_ret {A} (a : A) : silent (ret a).
Proof. apply silent_same_trace. reflexivity. Qed.

Lemma silent_raise {A} (e : exn) : silent (raise (A := A) e).
Proof. apply silent_same_trace. reflexivity. Qed.

Lemma silent_lift {A} (r : res A) : silent (lift r).
Proof. apply silent_same_trace. reflexivity. Qed.

Lemma silent_emit (e : event) : is_ui_event e = false -> silent (emit e).
Proof. intros U w. exists [e]. split; [reflexivity | repeat constructor; exact U]. Qed.

Lemma silent_bind {A B} (c : M A) (k : A -> M B) :
  silent c -> (forall a, silent (k a)) -> silent (bind c k).
Proof.
  intros Sc Sk w. unfold bind. destruct (Sc w) as (e1 & T1 & F1).
  destruct (c w) as [[a | e] w1]; simpl in T1.
  - destruct (Sk a w1) as (e2 & T2 & F2). exists (e1 ++ e2)%list.
    rewrite T2, T1, app_assoc. split; [reflexivity | apply Forall_app; auto].
  - exists e1. auto.
Qed.

Lemma silent_try_except {A} (c : M A) (h : exn -> M A) :
  silent c -> (forall e, silent (h e)) -> silent (try_except c h).
Proof.
  intros Sc Sh w. unfold try_except. destruct (Sc w) as (e1 & T1 & F1).
  destruct (c w) as [[a | e] w1]; simpl in T1.
  - exists e1. auto.
  - destruct (Sh e w1) as (e2 & T2 & F2). exists (e1 ++ e2)%list.
    rewrite T2, T1, app_assoc. split; [reflexivity | apply Forall_app; auto].
Qed.

Lemma silent_for_each {A B} (body : A -> M B) (l : list A) :
  (forall a, silent (body a)) -> silent (for_each body l).
Proof.
  intros Sb. induction l as [| a l IH]; simpl.
  - apply silent_ret.
  - apply silent_bind; [apply Sb | intros b].
    apply silent_bind; [apply IH | intros bs; apply silent_ret].
Qed.

Lemma silent_makedirs env name exist_ok : silent (os_makedirs env name exist_ok).
Proof.
  apply silent_same_trace. intros w. unfold os_makedirs.
  repeat match goal with |- context [if ?b then _ else _] => destruct b end;
    reflexivity.
Qed.

Ltac silence_step :=
  first
    [ apply silent_ret | apply silent_raise | apply silent_lift
    | apply silent_makedirs
    | apply silent_emit; reflexivity
    | apply silent_bind; [| intros ?]
    | apply silent_try_except; [| intros ?]
    | match goal with
      | |- silent (if ?b then _ else _) => destruct b
      | |- silent (let (_, _) := ?p in _) => destruct p
      end ].
Ltac silence := repeat silence_step.

Lemma silent_make_image env prompt resolution : silent (make_image env prompt resolution).
Proof. unfold make_image, sd_txt2img, requests_post. silence. Qed.

Lemma silent_synthesize env text out_wav engine voice_hint :
  silent (synthesize env text out_wav engine voice_hint).
Proof. unfold synthesize, tts_piper, tts_espeak, tts_pyttsx3. silence. Qed.

Lemma silent_build_video env scenes resolution out_path voice_hint tts_engine :
  silent (build_video env scenes resolution out_path voice_hint tts_engine).
Proof.
  unfold build_video, build_timeline.
  repeat first
    [ apply silent_make_image | apply silent_synthesize
    | apply silent_for_each; intros [i sc]; unfold scene_clip
    | silence_step ].
Qed.

(** [build_video] returns the path it was asked to write. *)
Lemma build_video_returns_path env scenes resolution out_path voice_hint tts_engine
    w out w' :
  build_video env scenes resolution out_path voice_hint tts_engine w = (Ok out, w') ->
  out = out_path.
Proof.
  unfold build_video. intros E.
  apply bind_ok in E as (tl & w1 & _ & E).
  apply bind_ok in E as ([] & w2 & _ & E).
  apply bind_ok in E as ([] & w3 & _ & E).
  injection E as <- _. reflexivity.
Qed.

Lemma reports_silent (ext : list event) :
  Forall (fun e => is_ui_event e = false) ext -> reports ext = [].
Proof.
  induction 1 as [| e ext U _ IH]; [reflexivity |].
  unfold reports in *.
  destruct e; simpl in U; try discriminate; simpl; exact IH.
Qed.

Lemma announced_silent (ext : list event) :
  Forall (fun e => is_ui_event e = false) ext -> announced ext = [].
Proof.
  induction 1 as [| e ext U _ IH]; [reflexivity |].
  unfold announced in *.
  destruct e; simpl in U; try discriminate; simpl; exact IH.
Qed.

Lemma reports_app (a b : list event) : reports (a ++ b) = (reports a ++ reports b)%list.
Proof. apply omap_app. Qed.

Lemma announced_app (a b : list event) :
  announced (a ++ b) = (announced a ++ announced b)%list.
Proof. apply omap_app. Qed.
End Silent.

(** C8. The render loop never raises, and every target is rendered in its
    turn: it is announced, [build_video] runs on it from the state the loop
    has reached, and its outcome is reported, by showing the video or by an
    error message carrying the exception, whatever happened to the targets
    before it. The reports come one per target, in order; the paths the
    loop returns are those of the targets whose video was shown. *)
Theorem export_targets_isolated `{PyRandom} (env : Env) (scenes : list Scene)
    (targets : list export_target) (voice_hint : option string) (tts_engine : string)
    (results : list string) (w : World) :
  exists reps w' ext,
    ui_render env scenes targets voice_hint tts_engine results w
    = (Ok (results ++ shown reps)%list, w')
    /\ renders_each env scenes voice_hint tts_engine targets w reps w'
    /\ map fst reps = map snd targets
    /\ w_trace w' = (w_trace w ++ ext)%list
    /\ announced ext = map rendering_message targets
    /\ reports ext = reps.
Proof.
  revert results w. induction targets as [| [res path] rest IH]; intros results w.
  - exists [], w, []. simpl. rewrite !app_nil_r.
    repeat split; [constructor].
  - cbn [ui_render]. unfold bind at 1. unfold emit at 1.
    change (mkWorld _ (w_rng w) (w_dirs w)
              (w_trace w ++ [EvInfo (rendering_message (res, path))]))
      with (logged (EvInfo (rendering_message (res, path))) w).
    set (w1 := logged _ w).
    unfold bind at 1. unfold try_except.
    destruct (silent_build_video env scenes res path voice_hint tts_engine w1)
      as (e1 & T1 & F1).
    unfold bind at 1.
    destruct (build_video env scenes res path voice_hint tts_engine w1)
      as [[out | e] w2] eqn:B; simpl in T1.
    + pose proof (build_video_returns_path _ _ _ _ _ _ _ _ _ B) as ->.
      unfold bind at 1. unfold emit at 1. unfold ret at 1.
      change (mkWorld _ (w_rng w2) (w_dirs w2) (w_trace w2 ++ [EvVideo path]))
        with (logged (report_event path (Ok path)) w2).
      set (w3 := logged _ w2).
      destruct (IH (results ++ [path])%list w3)
        as (reps & w' & ext & E & R & P & T & A & S).
      exists ((path, true) :: reps), w',
        ([EvInfo (rendering_message (res, path))] ++ e1 ++ [EvVideo path] ++ ext)%list.
      split; [| split; [| split; [| split; [| split]]]].
      * rewrite E. unfold shown. simpl. rewrite <- app_assoc. reflexivity.
      * exact (renders_next env scenes voice_hint tts_engine res path rest w
                 (Ok path) w2 reps w' B R).
      * simpl. rewrite P. reflexivity.
      * rewrite T. subst w3 w1. simpl. rewrite T1. simpl.
        rewrite <- !app_assoc. reflexivity.
      * rewrite !announced_app, (announced_silent e1 F1), A. reflexivity.
      * rewrite !reports_app, (reports_silent e1 F1), S. reflexivity.
    + unfold bind at 1. unfold emit at 1. unfold ret at 1.
      change (mkWorld _ (w_rng w2) (w_dirs w2) (w_trace w2 ++ [EvError path e]))
        with (logged (report_event path (Raise e)) w2).
      set (w3 := logged _ w2).
      destruct (IH results w3) as (reps & w' & ext & E & R & P & T & A & S).
      exists ((path, false) :: reps), w',
        ([EvInfo (rendering_message (res, path))] ++ e1 ++ [EvError path e] ++ ext)%list.
      split; [| split; [| split; [| split; [| split]]]].
      * rewrite E. reflexivity.
      * exact (renders_next env scenes voice_hint tts_engine res path rest w
                 (Raise e) w2 reps w' B R).
      * simpl. rewrite P. reflexivity.
      * rewrite T. subst w3 w1. simpl. rewrite T1. simpl.
        rewrite <- !app_assoc. reflexivity.
      * rewrite !announced_app, (announced_silent e1 F1), A. reflexivity.
      * rewrite !reports_app, (reports_silent e1 F1), S. reflexivity.
Qed.

(** Two targets on the offline machine: the first fails, and the second is
    rendered all the same; its picture and narration are made in its own
    working directory before it fails in its turn. *)
Example export_isolation_run :
  let run := ui_render offline_env demo_scenes
               [ (INSTAGRAM_RES, "/readonly/mina_IG_9x16.mp4");
                 (YOUTUBE_RES, "outputs/mina_YT_16x9.mp4") ]
               None "eSpeak (offline)" [] world0 in
  fst run = Ok []
  /\ reports (w_trace (snd run))
     = [ ("/readonly/mina_IG_9x16.mp4", false); ("outputs/mina_YT_16x9.mp4", false) ]
  /\ In (EvTTS "espeak" "outputs/mina_yt_16x9/scene_01.wav") (w_trace (snd run)).
Proof. vm_compute. repeat split; try reflexivity. auto 10. Qed.

(** A single-line prompt on the offline machine gives an image of the
    requested size. *)
Example fallback_illustration_run :
  exists img,
    fallback_illustration offline_env (PStr "a kite, a meadow") 1080 1920 = Ok img
    /\ im_width img = 1080%Z /\ im_height img = 1920%Z.
Proof.
  apply fallback_illustration_single_line; [lia | lia | reflexivity |].
  eexists. vm_compute. reflexivity.
Qed.

(** * Further properties of the code *)

(** ** Paths *)

Lemma has_sep_app (a b : string) : has_sep (a ++ b) = has_sep a || has_sep b.
Proof.
  unfold has_sep. induction a as [| c r IH]; [reflexivity |].
  simpl. rewrite IH, orb_assoc. reflexivity.
Qed.

Lemma has_sep_path_tail (p : string) : has_sep (path_tail p) = false.
Proof.
  induction p as [| c r IH]; [reflexivity |].
  cbn [path_tail]. destruct (has_sep (String c r)) eqn:S; [exact IH | exact S].
Qed.

(** [os.path.split]: the head, up to and including the last separator,
    and the tail after it make up the path again; the tail, which is the
    base name, holds no separator. *)
Theorem path_split_roundtrip (p : string) :
  path_head p ++ path_tail p = p
  /\ has_sep (os_path_basename p) = false
  /\ (has_sep p = false -> os_path_basename p = p).
Proof.
  split; [| split].
  - induction p as [| c r IH]; [reflexivity |].
    cbn [path_head path_tail]. destruct (has_sep (String c r)); [| reflexivity].
    change (String c (path_head r ++ path_tail r) = String c r).
    rewrite IH. reflexivity.
  - apply has_sep_path_tail.
  - intros S. destruct p as [| c r]; [reflexivity |].
    unfold os_path_basename. cbn [path_tail]. rewrite S. reflexivity.
Qed.

Lemma path_split_roundtrip_witness : os_path_basename "scene_01.wav" = "scene_01.wav".
Proof. exact (proj2 (proj2 (path_split_roundtrip "scene_01.wav")) eq_refl). Defined.

Lemma rstrip_sep_no_sep (p : string) : has_sep p = false -> rstrip_sep p = p.
Proof.
  unfold has_sep. induction p as [| c r IH]; [reflexivity |].
  cbn [contains_char rstrip_sep]. intros S.
  apply orb_false_elim in S as [S1 S2]. rewrite S1, (IH S2). reflexivity.
Qed.

Lemma ends_with_sep_has_sep (p : string) : ends_with_sep p = true -> has_sep p = true.
Proof.
  intros E. destruct (has_sep p) eqn:S; [reflexivity |].
  unfold ends_with_sep in E. destruct p as [| c r]; [discriminate |].
  rewrite (rstrip_sep_no_sep _ S), String.eqb_refl in E. discriminate.
Qed.

Lemma has_sep_join_l (a b : string) :
  has_sep a = true -> has_sep (os_path_join a b) = true.
Proof.
  intros S. unfold os_path_join. destruct b as [| c r].
  - destruct (str_empty a || ends_with_sep a); [exact S |].
    rewrite has_sep_app, S. reflexivity.
  - destruct (is_char "/" c) eqn:C.
    + unfold has_sep. cbn [contains_char]. rewrite C. reflexivity.
    + destruct (str_empty a || ends_with_sep a); rewrite has_sep_app, S; reflexivity.
Qed.

Lemma has_sep_workdir (env : Env) (out_path : string) :
  has_sep (video_workdir env out_path) = true.
Proof.
  unfold video_workdir, os_path_join.
  destruct (slugify env _) as [| c r].
  - reflexivity.
  - destruct (is_char "/" c) eqn:C.
    + unfold has_sep. cbn [contains_char]. rewrite C. reflexivity.
    + change (has_sep (ASSETS_DIR ++ "/" ++ String c r) = true).
      rewrite !has_sep_app. reflexivity.
Qed.

(** X1. Every file [build_video] asks [synthesize] to write lies in a
    directory: the path has a non-empty directory part whatever the output
    name and its slug are, so the directory step of [synthesize] never
    fails there for want of a directory name. *)
Theorem scene_paths_have_directory `{PyRandom} (env : Env) (out_path name : string)
    (w : World) :
  let wav_path := os_path_join (video_workdir env out_path) name in
  os_path_dirname wav_path <> ""
  /\ fst (os_makedirs env (os_path_dirname wav_path) true w) <> Raise FileNotFoundError.
Proof.
  intros wav_path.
  assert (D : os_path_dirname wav_path <> "").
  { intros D. apply dirname_empty_iff in D.
    unfold wav_path in D. rewrite has_sep_join_l in D; [discriminate |].
    apply has_sep_workdir. }
  split; [exact D |].
  unfold os_makedirs. destruct (os_path_dirname wav_path) as [| c r]; [contradiction |].
  cbn [str_empty].
  repeat match goal with |- context [if ?b then _ else _] => destruct b end;
    simpl; discriminate.
Qed.

(** ** The deterministic story engine, further *)

Lemma insert_before_last_snoc {A} (x l : A) (pre : list A) :
  py_insert_before_last x (pre ++ [l]) = ((pre ++ [x]) ++ [l])%list.
Proof.
  induction pre as [| a pre IH]; [reflexivity |].
  simpl. rewrite IH. destruct pre; reflexivity.
Qed.

(** The padding loop puts every Explore beat between the beats before the
    last one and the last one. *)
Lemma pad_beats_snoc (n : Z) (beats : list beat) :
  forall pre l, beats = (pre ++ [l])%list ->
    pad_beats n beats
    = (pre ++ repeat explore_beat (Z.to_nat (n - Z.of_nat (length beats))) ++ [l])%list.
Proof.
  funelim (pad_beats n beats); intros pre lst E.
  - rewrite (H (pre ++ [explore_beat])%list lst)
      by (rewrite E; apply insert_before_last_snoc).
    rewrite length_insert_before_last.
    replace (Z.to_nat (num_scenes - Z.of_nat (length beats)))
      with (S (Z.to_nat (num_scenes - Z.of_nat (S (length beats))))) by lia.
    simpl. rewrite <- app_assoc. reflexivity.
  - replace (Z.to_nat (num_scenes - Z.of_nat (length beats))) with 0%nat by lia.
    simpl. exact E.
Qed.

(** X2. The beats of a story. From eight scenes on they are the seven opening
    beats, then Explore beats as filling, then the Moral beat, whose idea
    is the sentence of [MORALS] for a known moral and the moral text itself
    for any other. Below eight scenes they are the first beats only, and
    the Moral beat is cut off. *)
Theorem story_beats_shape (title theme moral : string) (n : Z) :
  let beats := py_slice_to (pad_beats n (initial_beats title theme moral)) n in
  ((8 <= n)%Z ->
     beats = (firstn 7 (initial_beats title theme moral)
              ++ repeat explore_beat (Z.to_nat (n - 8)) ++ [moral_beat moral])%list)
  /\ ((0 <= n < 8)%Z ->
        beats = firstn (Z.to_nat n) (initial_beats title theme moral)
        /\ Forall (fun b => fst b <> "Moral") beats).
Proof.
  intros beats. subst beats.
  rewrite (pad_beats_snoc n (initial_beats title theme moral)
             (firstn 7 (initial_beats title theme moral)) (moral_beat moral) eq_refl).
  rewrite length_initial_beats. unfold py_slice_to. split.
  - intros N. destruct (Z.ltb_spec n 0); [lia |].
    apply firstn_all2. rewrite !length_app, repeat_length. simpl. lia.
  - intros N. destruct (Z.ltb_spec n 0); [lia |].
    replace (Z.to_nat (n - Z.of_nat 8)) with 0%nat by lia.
    assert (E : firstn (Z.to_nat n) (initial_beats title theme moral)
                = firstn (Z.to_nat n) (firstn 7 (initial_beats title theme moral))).
    { rewrite firstn_firstn. f_equal. lia. }
    split.
    + assert (L : (Z.to_nat n <= 7)%nat) by lia. revert L.
      generalize (Z.to_nat n). intros k L.
      do 8 (destruct k as [| k]; [reflexivity |]). lia.
    + assert (L : (Z.to_nat n <= 7)%nat) by lia. revert L.
      generalize (Z.to_nat n). intros k L.
      do 8 (destruct k as [| k]; [simpl; repeat constructor; discriminate |]). lia.
Qed.

Lemma story_beats_shape_witness :
  py_slice_to (pad_beats 10 (initial_beats "Mina" "kites" "patience")) 10
  = (firstn 7 (initial_beats "Mina" "kites" "patience")
     ++ repeat explore_beat 2 ++ [("Moral", "patience")])%list
  /\ Forall (fun b => fst b <> "Moral")
       (py_slice_to (pad_beats 6 (initial_beats "Mina" "kites" "patience")) 6).
Proof.
  split.
  - exact (proj1 (story_beats_shape "Mina" "kites" "patience" 10) ltac:(lia)).
  - exact (proj2 (proj2 (story_beats_shape "Mina" "kites" "patience" 6) ltac:(lia))).
Defined.

(** X3. The deterministic engine accepts any scene count. A negative count
    [n] is a slice bound counted from the end: it leaves the first [8 + n]
    of the eight beats, none from -8 down, and the engine still returns
    without error. *)
Theorem rule_based_negative_count `{PyRandom} `{PyStr}
    (title : string) (age : Z) (theme moral : string) (minutes n : Z) (w : World) :
  (n < 0)%Z ->
  exists t scenes w',
    generate_story_rule_based title age theme moral minutes n w = (Ok (t, scenes), w')
    /\ Z.of_nat (length scenes) = Z.max 0 (8 + n).
Proof.
  intros N.
  destruct (rule_based_returns title age theme moral minutes n w)
    as (t & scenes & w' & E & L & _).
  exists t, scenes, w'. split; [exact E |].
  rewrite L. unfold py_slice_to. destruct (Z.ltb_spec n 0); [| lia].
  rewrite length_take. pose proof (length_pad_beats n (initial_beats title theme moral)) as P.
  rewrite length_initial_beats in P. lia.
Qed.

Lemma rule_based_negative_count_witness :
  exists t scenes w',
    generate_story_rule_based "Mina" 5 "kindness" "kindness" 2 (-3) world0
    = (Ok (t, scenes), w')
    /\ Z.of_nat (length scenes) = 5%Z.
Proof.
  exact (rule_based_negative_count "Mina" 5 "kindness" "kindness" 2 (-3) world0
           ltac:(lia)).
Defined.

Lemma scene_of_beat_tells `{PyRandom} title theme minutes n b w sc w' :
  scene_of_beat title theme minutes n b w = (Ok sc, w') -> scene_tells title theme b sc.
Proof.
  unfold scene_of_beat.
  repeat match goal with
  | |- context [bind (py_random_choice ?l) ?k ?w0] =>
      let a := fresh "a" in let w1 := fresh "w" in
      let E := fresh "E" in let I := fresh "I" in
      destruct (random_choice_In l w0 ltac:(discriminate)) as (a & w1 & E & I & _);
      rewrite (bind_run _ _ _ _ _ E)
  end.
  intros G. apply bind_ok in G as (d & w5 & _ & G). injection G as <- _.
  unfold scene_tells. eexists _, _, _, _. repeat split; eassumption.
Qed.

(** X4. The scenes of the deterministic engine tell its beats one by one, in
    order: each scene's text is the title, a companion and a place drawn
    from the fixed word lists, and the idea of its beat; its prompt names
    the same companion and place. *)
Theorem rule_based_scenes_follow_beats `{PyRandom} `{PyStr}
    (title : string) (age : Z) (theme moral : string) (minutes n : Z) (w : World) :
  exists scenes w',
    generate_story_rule_based title age theme moral minutes n w
    = (Ok (PStr (title ++ ": A " ++ py_title theme ++ " Adventure"), scenes), w')
    /\ Forall2 (scene_tells title theme)
         (py_slice_to (pad_beats n (initial_beats title theme moral)) n) scenes.
Proof.
  destruct (rule_based_returns title age theme moral minutes n w)
    as (t & scenes & w' & E & _).
  exists scenes, w'. unfold generate_story_rule_based in *.
  unfold bind at 1 in E. unfold py_random_seed in E.
  apply bind_ok in E as (scs & w1 & F & E). injection E as <- <- <-.
  unfold bind at 1. unfold py_random_seed. rewrite (bind_run _ _ _ _ _ F).
  split; [reflexivity |].
  eapply for_each_Forall2; [| exact F].
  intros b w2 sc w3 _ S. eapply scene_of_beat_tells, S.
Qed.

(** X5. The requested length decides little. For the minutes the form
    offers (1 to 10), every scene of a story lasts exactly 10 seconds as
    soon as the share [minutes*60/n] reaches 10, and exactly 3.5 seconds
    as soon as it is no more than 3.5, whatever was asked for; with the
    form's 6 to 20 scenes, every story of 4 minutes or more is made of
    10-second scenes. *)
Theorem rule_based_duration_saturates `{PyRandom} `{PyStr}
    (title : string) (age : Z) (theme moral : string) (minutes n : Z) (w : World) :
  (1 <= minutes <= 10)%Z -> (0 < n)%Z ->
  exists t scenes w',
    generate_story_rule_based title age theme moral minutes n w = (Ok (t, scenes), w')
    /\ ((10 * n <= minutes * 60)%Z ->
        Forall (fun sc => (duration sc == 10)%Q) scenes)
    /\ ((2 * (minutes * 60) <= 7 * n)%Z ->
        Forall (fun sc => (duration sc == 7 # 2)%Q) scenes)
    /\ ((6 <= n <= 20)%Z -> (4 <= minutes)%Z ->
        Forall (fun sc => (duration sc == 10)%Q) scenes).
Proof.
  intros Mi N.
  destruct (rule_based_returns title age theme moral minutes n w)
    as (t & scenes & w' & E & L & F & _).
  exists t, scenes, w'. split; [exact E |].
  assert (P : (0 < inject_Z n)%Q).
  { change 0%Q with (inject_Z 0). rewrite <- Zlt_Qlt. exact N. }
  assert (Hi : (10 * n <= minutes * 60)%Z ->
               Forall (fun sc => (duration sc == 10)%Q) scenes).
  { intros S. eapply Forall_impl; [exact F |].
    intros sc (x & X & C & _). simpl.
    unfold py_truediv in X. destruct (Z.eqb_spec n 0); [lia |].
    injection X as <-. rewrite C.
    assert (G : (10 <= inject_Z (minutes * 60) / inject_Z n)%Q).
    { apply Qle_shift_div_l; [exact P |].
      change 10%Q with (inject_Z 10). rewrite <- inject_Z_mult, <- Zle_Qle. lia. }
    revert G. generalize (inject_Z (minutes * 60) / inject_Z n)%Q. intros x G.
    unfold spec_clamp. case_Qltb; lra. }
  split; [exact Hi |]. split.
  - intros S. eapply Forall_impl; [exact F |].
    intros sc (x & X & C & _). simpl.
    unfold py_truediv in X. destruct (Z.eqb_spec n 0); [lia |].
    injection X as <-. rewrite C.
    assert (G : (inject_Z (minutes * 60) / inject_Z n <= 7 # 2)%Q).
    { apply Qle_shift_div_r; [exact P |].
      assert (G : (inject_Z 2 * inject_Z (minutes * 60) <= inject_Z 7 * inject_Z n)%Q).
      { rewrite <- !inject_Z_mult, <- Zle_Qle. exact S. }
      revert G. generalize (inject_Z (minutes * 60)), (inject_Z n).
      intros a b G. change (inject_Z 2) with 2%Q in G. change (inject_Z 7) with 7%Q in G.
      lra. }
    revert G. generalize (inject_Z (minutes * 60) / inject_Z n)%Q. intros x G.
    unfold spec_clamp. case_Qltb; lra.
  - intros Sc M4. apply Hi. lia.
Qed.

Lemma rule_based_duration_saturates_witness :
  exists t scenes w',
    generate_story_rule_based "Mina" 5 "kindness" "kindness" 4 20 world0
    = (Ok (t, scenes), w')
    /\ Forall (fun sc => (duration sc == 10)%Q) scenes.
Proof.
  destruct (rule_based_duration_saturates "Mina" 5 "kindness" "kindness" 4 20 world0
              ltac:(lia) ltac:(lia)) as (t & scenes & w' & E & _ & _ & T).
  exists t, scenes, w'. split; [exact E |]. apply T; lia.
Defined.

(** ** The Ollama-backed story engine, further *)

Lemma for_each_res_map {A B} (f : A -> B) (body : A -> res B) (l : list A) :
  (forall a, In a l -> body a = Ok (f a)) -> for_each_res body l = Ok (map f l).
Proof.
  induction l as [| a l IH]; simpl; intros E; [reflexivity |].
  rewrite (E a), IH by auto. reflexivity.
Qed.

Lemma llm_scenes_of_objects (d : gmap string pyval) (items : list (gmap string pyval))
    (minutes n : Z) (d0 : Q) :
  base_duration minutes n = Ok d0 ->
  d !! "scenes" = Some (PList (map PDict items)) ->
  llm_scenes (PDict d) minutes n = Ok (map (scene_of_item d0) items).
Proof.
  intros D S. unfold llm_scenes. simpl. rewrite S. simpl.
  rewrite (for_each_res_map (fun v => match v with
                                      | PDict s => scene_of_item d0 s
                                      | _ => scene_of_item d0 ∅
                                      end)).
  - rewrite map_map. reflexivity.
  - intros v I. apply in_map_iff in I as (s & <- & _). simpl. rewrite D. reflexivity.
Qed.

(** X6. A scene list made of JSON objects becomes one scene per object, in
    order and as many; an object without ["text"] gives an empty text, one
    without ["prompt"] the stock prompt, and every scene gets the clamped
    share of the duration. *)
Theorem llm_scenes_defaults (d : gmap string pyval) (items : list (gmap string pyval))
    (minutes n : Z) (d0 : Q) :
  base_duration minutes n = Ok d0 ->
  d !! "scenes" = Some (PList (map PDict items)) ->
  exists scenes,
    llm_scenes (PDict d) minutes n = Ok scenes
    /\ Forall2 (fun s sc =>
                  text sc = default (PStr "") (s !! "text")
                  /\ prompt sc = default (PStr "friendly illustration of the scene")
                                   (s !! "prompt")
                  /\ duration sc = d0)
               items scenes.
Proof.
  intros D S. exists (map (scene_of_item d0) items).
  split; [apply llm_scenes_of_objects; assumption |].
  clear S. induction items as [| s items IH]; constructor; [simpl; auto | exact IH].
Qed.

Lemma llm_scenes_defaults_witness :
  exists scenes,
    llm_scenes
      (PDict (list_to_map
         [("scenes", PList (map PDict [ list_to_map [("text", PStr "Mina flew her kite.")];
                                        (∅ : gmap string pyval) ]))]))
      2 6 = Ok scenes
    /\ Forall2 (fun s sc =>
                  text sc = default (PStr "") (s !! "text")
                  /\ prompt sc = default (PStr "friendly illustration of the scene")
                                   (s !! "prompt")
                  /\ duration sc = 10%Q)
               [ list_to_map [("text", PStr "Mina flew her kite.")];
                 (∅ : gmap string pyval) ] scenes.
Proof.
  refine (llm_scenes_defaults
            (list_to_map
               [("scenes", PList (map PDict [ list_to_map [("text", PStr "Mina flew her kite.")];
                                              (∅ : gmap string pyval) ]))])
            [ list_to_map [("text", PStr "Mina flew her kite.")]; ∅ ]
            2 6 10 eq_refl _).
  vm_compute. reflexivity.
Defined.

(** X7. When the service answers a story of at least one scene object, the
    engine returns the service's title (the given title if there is none)
    and the first [n] of its scenes, after exactly one request. *)
Theorem ollama_returns_service_story `{PyRandom} `{PyStr} (env : Env)
    (title : string) (age : Z) (theme moral : string) (minutes n : Z) (model : string)
    (w : World) r body text (d : gmap string pyval) item items d0 :
  requests_installed env = true ->
  http_post env (ollama_url env)
    (ollama_payload title age theme moral minutes n model) = Ok r ->
  status_ok r = true ->
  body_json r = Ok body ->
  py_get body "response" (PStr "{}") = Ok (PStr text) ->
  json_loads env text = Ok (PDict d) ->
  d !! "scenes" = Some (PList (map PDict (item :: items))) ->
  base_duration minutes n = Ok d0 ->
  generate_story_ollama env title age theme moral minutes n model w
  = (Ok (default (PStr title) (d !! "title"),
         py_slice_to (map (scene_of_item d0) (item :: items)) n),
     posted (ollama_url env) w).
Proof.
  intros I P S B R J Sc D.
  rewrite (ollama_after_transport env title age theme moral minutes n model
             w r body (PStr text) I P S B R).
  unfold parse_llm_story. simpl. rewrite J.
  rewrite (llm_scenes_of_objects d (item :: items) minutes n d0 D Sc).
  reflexivity.
Qed.

Lemma ollama_returns_service_story_witness :
  generate_story_ollama (ollama_env "{...}")
    "Mina" 5 "kindness" "kindness" 2 6 "llama3.1:8b" world0
  = (Ok (PStr "The Moon Kite",
         [ mkScene (PStr "Mina flew her kite.") (PStr "a kite, a moon") 10 ]),
     posted (ollama_url (ollama_env "{...}")) world0).
Proof.
  refine (ollama_returns_service_story (ollama_env "{...}")
            "Mina" 5 "kindness" "kindness" 2 6 "llama3.1:8b" world0
            _ _ "{...}" _
            (list_to_map [ ("text", PStr "Mina flew her kite.");
                           ("prompt", PStr "a kite, a moon") ])
            [] 10 eq_refl eq_refl eq_refl eq_refl _ eq_refl _ eq_refl).
  - vm_compute. reflexivity.
  - vm_compute. reflexivity.
Defined.

Lemma llm_scenes_zero data minutes scenes :
  llm_scenes data minutes 0 = Ok scenes -> scenes = [].
Proof.
  unfold llm_scenes.
  destruct (py_get data "scenes" (PList [])) as [raw | e]; [| discriminate].
  destruct (py_iter raw) as [items | e]; [| discriminate].
  intros E.
  eapply (for_each_res_Forall (fun _ => False)) in E as [F _].
  - destruct F as [| sc ? []]. reflexivity.
  - intros s sc. simpl.
    destruct (py_get s "text" (PStr "")); [| discriminate].
    destruct (py_get s "prompt" _); discriminate.
Qed.

(** X8. Asked for zero scenes, the engine always ends with the deterministic
    story of no scene once the service has answered: a scene in the answer
    runs into the division by zero, no scene into the empty-list error, and
    both are caught. *)
Theorem ollama_zero_scenes `{PyRandom} `{PyStr} (env : Env)
    (title : string) (age : Z) (theme moral : string) (minutes : Z) (model : string)
    (w : World) r body resp :
  requests_installed env = true ->
  http_post env (ollama_url env)
    (ollama_payload title age theme moral minutes 0 model) = Ok r ->
  status_ok r = true ->
  body_json r = Ok body ->
  py_get body "response" (PStr "{}") = Ok resp ->
  exists w',
    generate_story_ollama env title age theme moral minutes 0 model w
    = (Ok (PStr (title ++ ": A " ++ py_title theme ++ " Adventure"), []), w').
Proof.
  intros I P S B R.
  rewrite (ollama_after_transport env title age theme moral minutes 0 model
             w r body resp I P S B R).
  assert (E : exists e, parse_llm_story env resp title minutes 0 = Raise e).
  { unfold parse_llm_story.
    destruct (py_json_loads env resp) as [data | e]; [| eauto].
    destruct (llm_scenes data minutes 0) as [scenes | e] eqn:L; [| eauto].
    apply llm_scenes_zero in L as ->. eauto. }
  destruct E as [e ->]. eexists. reflexivity.
Qed.

Lemma ollama_zero_scenes_witness :
  exists w',
    generate_story_ollama (ollama_env "{...}")
      "Mina" 5 "kindness" "kindness" 2 0 "llama3.1:8b" world0
    = (Ok (PStr "Mina: A Kindness Adventure", []), w').
Proof.
  refine (ollama_zero_scenes (ollama_env "{...}")
            "Mina" 5 "kindness" "kindness" 2 "llama3.1:8b" world0
            _ _ (PStr "{...}") eq_refl eq_refl eq_refl eq_refl _).
  vm_compute. reflexivity.
Defined.

(** X9. The engine sends one request at most. Without the requests library
    it raises at once, leaving the process state alone. With it, the log
    grows by the one POST to the Ollama URL and the directories stay as
    they are, whether the story then comes from the service, from the
    deterministic engine, or not at all; the global random generator is
    left alone unless the engine falls back, and then the whole run is the
    deterministic engine's (which reseeds the generator) after the POST. *)
Theorem ollama_sends_one_request `{PyRandom} `{PyStr} (env : Env)
    (title : string) (age : Z) (theme moral : string) (minutes n : Z) (model : string)
    (w : World) :
  let run := generate_story_ollama env title age theme moral minutes n model w in
  (requests_installed env = false ->
     run = (Raise (RuntimeError "'requests' not installed for Ollama API."), w))
  /\ (requests_installed env = true ->
        w_trace (snd run) = (w_trace w ++ [EvPost (ollama_url env)])%list
        /\ w_dirs (snd run) = w_dirs w
        /\ (w_rng (snd run) = w_rng w
            \/ run = generate_story_rule_based title age theme moral minutes n
                       (posted (ollama_url env) w))).
Proof.
  intros run. subst run. unfold generate_story_ollama. split; intros I; rewrite I; simpl.
  - reflexivity.
  - unfold requests_post, bind, emit, lift, try_except, raise_for_status.
    unfold ollama_url, posted.
    destruct (http_post env _ _) as [r | e]; [| simpl; auto].
    destruct (status_ok r); [| simpl; auto].
    destruct (body_json r) as [body | e]; [| simpl; auto].
    destruct (py_get body "response" (PStr "{}")) as [resp | e]; [| simpl; auto].
    destruct (parse_llm_story env resp title minutes n) as [v | e]; [simpl; auto |].
    match goal with |- context [generate_story_rule_based _ _ _ _ _ _ ?w1] =>
      destruct (rule_based_returns title age theme moral minutes n w1)
        as (t & scenes & w' & E & _ & _ & [Sd St]) end.
    rewrite E. simpl in *. auto.
Qed.

Lemma ollama_sends_one_request_witness :
  w_trace (snd (generate_story_ollama offline_env
                  "Mina" 5 "kindness" "kindness" 2 6 "llama3.1:8b" world0))
  = [EvPost "http://127.0.0.1:11434/api/generate"].
Proof.
  exact (proj1 (proj2 (ollama_sends_one_request offline_env
                         "Mina" 5 "kindness" "kindness" 2 6 "llama3.1:8b" world0)
                 eq_refl)).
Defined.

Lemma rule_based_any_state `{PyRandom} `{PyStr}
    (title : string) (age : Z) (theme moral : string) (minutes n : Z) (w1 w2 : World) :
  fst (generate_story_rule_based title age theme moral minutes n w1)
  = fst (generate_story_rule_based title age theme moral minutes n w2).
Proof.
  unfold generate_story_rule_based, bind at 1 3, py_random_seed.
  apply rng_only_bind; [| intros scenes; apply rng_only_ret | reflexivity].
  apply rng_only_for_each. intros b. apply scene_of_beat_rng_only.
Qed.

(** X10. In the UI a failed request costs the user nothing but a warning: with
    the Ollama engine chosen and the POST raising, the story step returns
    the deterministic story, having logged the request and one warning
    that carries the exception. With the built-in engine chosen it is the
    deterministic engine alone. *)
Theorem ui_story_survives_transport_failure `{PyRandom} `{PyStr} (env : Env)
    (story_engine title : string) (age : Z) (theme moral : string) (minutes n : Z)
    (model : string) (w : World) :
  (forall e,
     story_engine = "Ollama (local LLM)" ->
     requests_installed env = true ->
     http_post env (ollama_url env)
       (ollama_payload title age theme moral minutes n model) = Raise e ->
     exists story w',
       ui_story env story_engine title age theme moral minutes n model w = (Ok story, w')
       /\ fst (generate_story_rule_based title age theme moral minutes n w) = Ok story
       /\ w_trace w' = (w_trace w ++ [EvPost (ollama_url env); EvWarning e])%list)
  /\ (story_engine <> "Ollama (local LLM)" ->
      ui_story env story_engine title age theme moral minutes n model w
      = generate_story_rule_based title age theme moral minutes n w).
Proof.
  split.
  - intros e -> I P. unfold ui_story. rewrite String.eqb_refl.
    unfold try_except, generate_story_ollama. rewrite I. simpl.
    unfold requests_post, bind, emit, lift. unfold ollama_url in P. rewrite P.
    match goal with |- context [generate_story_rule_based _ _ _ _ _ _ ?w1] =>
      set (w2 := w1);
      destruct (rule_based_returns title age theme moral minutes n w2)
        as (t & scenes & w' & E & _ & _ & [Sd St]) end.
    exists (t, scenes), w'. split; [exact E |]. split.
    + rewrite (rule_based_any_state title age theme moral minutes n w w2), E.
      reflexivity.
    + rewrite St. subst w2. simpl. rewrite <- app_assoc. reflexivity.
  - intros N. unfold ui_story.
    destruct (String.eqb_spec story_engine "Ollama (local LLM)"); [contradiction |].
    reflexivity.
Qed.

Lemma ui_story_survives_transport_failure_witness :
  exists story w',
    ui_story offline_env "Ollama (local LLM)" "Mina" 5 "kindness" "kindness" 2 6
      "llama3.1:8b" world0 = (Ok story, w')
    /\ fst (generate_story_rule_based "Mina" 5 "kindness" "kindness" 2 6 world0) = Ok story
    /\ w_trace w'
       = ([] ++ [EvPost (ollama_url offline_env); EvWarning ConnectionError])%list.
Proof.
  exact (proj1 (ui_story_survives_transport_failure offline_env "Ollama (local LLM)"
                  "Mina" 5 "kindness" "kindness" 2 6 "llama3.1:8b" world0)
           ConnectionError eq_refl eq_refl eq_refl).
Defined.

(** ** The illustration provider, further *)

Lemma str_len_str_take (n : nat) (s : string) : (str_len (str_take n s) <= n)%nat.
Proof.
  revert n. induction s as [| c r IH]; intros n; simpl; [lia |].
  destruct (is_continuation c) eqn:C.
  - simpl. rewrite C. apply IH.
  - destruct n as [| n]; simpl; [lia |]. rewrite C. specialize (IH n). lia.
Qed.

Lemma str_take_no_char (x : ascii) (n : nat) (s : string) :
  contains_char x s = false -> contains_char x (str_take n s) = false.
Proof.
  revert n. induction s as [| c r IH]; intros n; simpl; auto.
  intros C. apply orb_false_elim in C as [C1 C2].
  destruct (is_continuation c); [| destruct n as [| n]; [reflexivity |]];
    simpl; rewrite C1; apply IH, C2.
Qed.

(** A slice counts code points, not bytes: the two bytes of an accented
    letter are one character. *)
Example str_take_code_points :
  str_take 2 "été" = "ét" /\ str_len "été" = 3%nat /\ String.length "été" = 5%nat.
Proof. repeat split. Qed.

Lemma before_comma_no_comma (s : string) : contains_char "," (before_comma s) = false.
Proof.
  induction s as [| c r IH]; [reflexivity |].
  cbn [before_comma]. destruct (is_char "," c) eqn:C; [reflexivity |].
  cbn [contains_char]. rewrite C, IH. reflexivity.
Qed.

(** X11. What the fallback writes into the speech bubble. Whenever it returns
    an image, the last thing drawn is the first comma-delimited clause of
    the prompt, cut to its first 80 characters: a text of at most 80
    characters (code points, however many bytes they take) with no comma
    and no line break, in the dark grey (60, 60, 60). *)
Theorem fallback_draws_first_clause (env : Env) (p : string) (width height : Z)
    (img : Image) :
  fallback_illustration env (PStr p) width height = Ok img ->
  (exists ops x y f,
     im_ops img = (ops ++ [DrawText x y (first_clause p) (60, 60, 60)%Z f])%list)
  /\ (str_len (first_clause p) <= 80)%nat
  /\ contains_char "," (first_clause p) = false
  /\ contains_char (ascii_of_nat 10) (first_clause p) = false.
Proof.
  intros E. split; [| split; [| split]].
  - unfold fallback_illustration in E.
    destruct (fallback_background width height) as [bg | e]; [| discriminate].
    destruct (bubble_box width height) as [[[bx by_] bubble_w] bubble_h].
    destruct (textlength env _ _) as [tw | e]; [| discriminate].
    destruct (font_size _) as [th | e]; [| discriminate].
    injection E as <-. simpl. eauto.
  - apply str_len_str_take.
  - apply str_take_no_char, before_comma_no_comma.
  - unfold fallback_illustration in E.
    destruct (fallback_background width height) as [bg | e]; [| discriminate].
    destruct (bubble_box width height) as [[[bx by_] bubble_w] bubble_h].
    unfold textlength in E.
    destruct (contains_char (ascii_of_nat 10) (first_clause p)); [discriminate | reflexivity].
Qed.

Lemma fallback_draws_first_clause_witness :
  (str_len (first_clause "a kite, a meadow") <= 80)%nat
  /\ first_clause "a kite, a meadow" = "a kite".
Proof.
  split; [| reflexivity].
  refine (proj1 (proj2 (fallback_draws_first_clause offline_env "a kite, a meadow"
                          64 64 _ _))).
  vm_compute. reflexivity.
Defined.

(** X12. A prompt that is no string (a JSON null, number, list or object that
    came with the service's scene) makes the fallback raise
    [AttributeError] at [prompt.split], after the background is drawn. *)
Theorem fallback_rejects_non_string_prompt (env : Env) (prompt : pyval)
    (width height : Z) :
  (0 < width)%Z -> (0 < height)%Z ->
  (forall s, prompt <> PStr s) ->
  fallback_illustration env prompt width height = Raise AttributeError.
Proof.
  intros W Hh N. unfold fallback_illustration.
  destruct (fallback_background_ok width height W Hh) as (img & -> & _).
  destruct (bubble_box width height) as [[[bx by_] bubble_w] bubble_h].
  destruct prompt; try reflexivity. exfalso. eapply N. reflexivity.
Qed.

Lemma fallback_rejects_non_string_prompt_witness :
  fallback_illustration offline_env PNone 1080 1920 = Raise AttributeError.
Proof.
  apply fallback_rejects_non_string_prompt; [lia | lia | discriminate].
Defined.

(** X13. [make_image] raises only what the fallback raises: whatever goes
    wrong with the image service is absorbed. So on a positive canvas, for
    a prompt whose first clause is a single line and a font that has a
    size, it always returns an image, whatever the service does. *)
Theorem make_image_absorbs_service_errors `{PyRandom} (env : Env) (prompt : pyval)
    (width height : Z) (w : World) :
  (forall e, fst (make_image env prompt (width, height) w) = Raise e ->
             fallback_illustration env prompt width height = Raise e)
  /\ (forall p,
        prompt = PStr p ->
        (0 < width)%Z -> (0 < height)%Z ->
        contains_char (ascii_of_nat 10) (first_clause p) = false ->
        (exists size, bubble_font env (snd (bubble_box width height)) = FreeTypeFont size) ->
        exists img, fst (make_image env prompt (width, height) w) = Ok img).
Proof.
  unfold make_image, try_except, lift.
  destruct (sd_txt2img env prompt width height w) as [[img | e0] w1]; simpl.
  - split; [discriminate | eauto].
  - split; [auto |].
    intros p -> W Hh L F.
    destruct (fallback_illustration_single_line env p width height W Hh L F)
      as (img & -> & _).
    eauto.
Qed.

Lemma make_image_absorbs_service_errors_witness :
  exists img, fst (make_image offline_env (PStr "a kite, a meadow") (1080, 1920)%Z world0)
              = Ok img.
Proof.
  refine (proj2 (make_image_absorbs_service_errors offline_env (PStr "a kite, a meadow")
                   1080 1920 world0) "a kite, a meadow" eq_refl _ _ eq_refl _).
  - lia.
  - lia.
  - eexists. vm_compute. reflexivity.
Defined.

Lemma py_int_between (a b : Z) (x : Q) :
  (0 <= a)%Z -> (inject_Z a <= x <= inject_Z b)%Q -> (a <= py_int x <= b)%Z.
Proof.
  intros A [Lo Hi].
  assert (E : py_int x = Qfloor x).
  { unfold py_int, Qfloor. destruct x as [num den]. simpl.
    apply Z.quot_div_nonneg; [| lia].
    assert (P : (0 <= num # den)%Q).
    { apply Qle_trans with (inject_Z a); [| exact Lo].
      change 0%Q with (inject_Z 0). rewrite <- Zle_Qle. exact A. }
    unfold Qle in P. simpl in P. lia. }
  rewrite E. split.
  - rewrite <- (Qfloor_Z a). apply Qfloor_resp_le, Lo.
  - rewrite <- (Qfloor_Z b). apply Qfloor_resp_le, Hi.
Qed.

Lemma row_fraction (y height : Z) :
  (0 <= y < height)%Z -> (0 <= inject_Z y / inject_Z height <= 1)%Q.
Proof.
  intros [Y0 Yh].
  assert (P : (0 < inject_Z height)%Q).
  { change 0%Q with (inject_Z 0). rewrite <- Zlt_Qlt. lia. }
  split.
  - apply Qle_shift_div_l; [exact P |]. rewrite Qmult_0_l.
    change 0%Q with (inject_Z 0). rewrite <- Zle_Qle. exact Y0.
  - apply Qle_shift_div_r; [exact P |]. rewrite Qmult_1_l.
    rewrite <- Zle_Qle. lia.
Qed.

Lemma for_each_res_Forall_in {A B} (P : B -> Prop) (body : A -> res B) (l : list A) bs :
  (forall a b, In a l -> body a = Ok b -> P b) ->
  for_each_res body l = Ok bs -> Forall P bs /\ length bs = length l.
Proof.
  revert bs. induction l as [| a l IH]; simpl; intros bs HP E.
  - injection E as <-. split; [constructor | reflexivity].
  - destruct (body a) as [b | e] eqn:Eb; [| discriminate].
    destruct (for_each_res body l) as [bs' | e]; [| discriminate].
    injection E as <-. destruct (IH bs') as [F L]; [eauto | reflexivity |].
    split; [constructor; eauto | simpl; congruence].
Qed.

(** X15. The gradient is one line per pixel row, each across the whole width,
    and its colours stay inside the warm band from (255, 250, 240) at the
    top towards (235, 200, 180) at the bottom: every component is a valid
    colour value. *)
Theorem gradient_lines_in_band (width height : Z) (lines : list draw_op) :
  gradient_lines width height = Ok lines ->
  length lines = Z.to_nat height
  /\ Forall (fun op => exists y r g b,
               op = DrawLine 0 y width y (r, g, b)
               /\ (0 <= y < height)%Z
               /\ (235 <= r <= 255)%Z /\ (200 <= g <= 250)%Z /\ (180 <= b <= 240)%Z)
            lines.
Proof.
  unfold gradient_lines. intros E.
  eapply for_each_res_Forall_in in E as [F L].
  - split; [| exact F]. rewrite L. unfold range.
    rewrite length_map, length_seq. reflexivity.
  - intros y op Hy. simpl.
    assert (Y : (0 <= y < height)%Z).
    { unfold range in Hy. apply in_map_iff in Hy as (k & <- & Hk).
      apply in_seq in Hk. lia. }
    unfold py_truediv. destruct (Z.eqb_spec height 0); [lia |].
    intros [= <-]. pose proof (row_fraction y height Y) as [T0 T1].
    set (t := (inject_Z y / inject_Z height)%Q) in *.
    exists y, (py_int (255 - 20 * t)), (py_int (250 - 50 * t)), (py_int (240 - 60 * t)).
    split; [reflexivity |]. split; [exact Y |]. clearbody t.
    split; [| split]; (apply py_int_between; [lia | unfold inject_Z; lra]).
Qed.

Lemma gradient_lines_in_band_witness :
  exists lines, gradient_lines 4 3 = Ok lines /\ length lines = 3%nat.
Proof.
  eexists. split; [reflexivity |].
  refine (proj1 (gradient_lines_in_band 4 3 _ _)). reflexivity.
Defined.

(** X16. On a positive canvas the speech bubble lies inside the image. It is
    centred: the margin on its right is the margin on its left, or one
    pixel more. *)
Theorem bubble_inside_canvas (width height : Z) :
  (0 < width)%Z -> (0 < height)%Z ->
  let '(bx, by_, bubble_w, bubble_h) := bubble_box width height in
  (0 <= bx)%Z /\ (0 <= bubble_w)%Z /\ (bx + bubble_w <= width)%Z
  /\ (0 <= by_)%Z /\ (0 <= bubble_h)%Z /\ (by_ + bubble_h <= height)%Z
  /\ (0 <= (width - (bx + bubble_w)) - bx <= 1)%Z.
Proof.
  intros W Hh. unfold bubble_box. rewrite !py_int_scale.
  rewrite !Z.quot_div_nonneg by lia.
  pose proof (Z.div_pos (width * 86) 100 ltac:(lia) ltac:(lia)).
  pose proof (Z.mul_div_le (width * 86) 100 ltac:(lia)).
  pose proof (Z.div_pos (height * 18) 100 ltac:(lia) ltac:(lia)).
  pose proof (Z.mul_div_le (height * 18) 100 ltac:(lia)).
  pose proof (Z.div_pos (height * 72) 100 ltac:(lia) ltac:(lia)).
  pose proof (Z.mul_div_le (height * 72) 100 ltac:(lia)).
  set (bw := (width * 86 / Z.pos 100)%Z) in *.
  pose proof (Z.div_pos (width - bw) 2 ltac:(lia) ltac:(lia)).
  pose proof (Z.mul_div_le (width - bw) 2 ltac:(lia)).
  pose proof (Z.mod_pos_bound (width - bw) 2 ltac:(lia)).
  pose proof (Z.div_mod (width - bw) 2 ltac:(lia)).
  repeat split; lia.
Qed.

Lemma bubble_inside_canvas_witness :
  bubble_box 1080 1920 = (76, 1382, 928, 345)%Z /\ (76 + 928 <= 1080)%Z.
Proof.
  split; [reflexivity |].
  exact (proj1 (proj2 (proj2 (bubble_inside_canvas 1080 1920 ltac:(lia) ltac:(lia))))).
Defined.

(** ** Narration, further *)

Lemma pick_voice_spec (env : Env) (voice_hint : string)
    (voices : list (string * option string)) :
  match pick_voice env voice_hint voices with
  | Some id =>
      exists pre name post,
        voices = (pre ++ (id, name) :: post)%list
        /\ voice_matches env voice_hint (id, name) = true
        /\ Forall (fun v => voice_matches env voice_hint v = false) pre
  | None => Forall (fun v => voice_matches env voice_hint v = false) voices
  end.
Proof.
  unfold pick_voice.
  induction voices as [| [id name] vs IH]; [constructor |].
  rewrite filter_cons.
  match goal with |- context [decide ?P] => destruct (decide P) as [M | M] end.
  - cbn [fst]. exists [], name, vs. simpl. repeat split; [| constructor].
    apply Is_true_true, M.
  - assert (M' : voice_matches env voice_hint (id, name) = false).
    { unfold voice_matches.
      match goal with |- ?b = false => destruct b; [exfalso; apply M; exact I | reflexivity] end. }
    destruct (filter _ vs) as [| v fs]; cbn [fst] in *.
    + constructor; assumption.
    + destruct IH as (pre & nm & post & -> & Mv & F).
      exists ((id, name) :: pre), nm, post. repeat split; [exact Mv |].
      constructor; assumption.
Qed.

(** X17. The voice pyttsx3 is run with. Without a hint (none, or an empty
    one) no voice is set and the engine keeps its own. With a hint it is
    the first system voice, in the order the engine lists them, whose
    lower-cased name holds the lower-cased hint; no voice is set when no
    name does. *)
Theorem selected_voice_first_match `{PyRandom} (env : Env) (text : pyval)
    (wav_path : string) (voice_hint : option string) (w : World) :
  (pyttsx3_installed env = true ->
   tts_pyttsx3 env text wav_path voice_hint w
   = (pyttsx3_run env text wav_path (selected_voice env voice_hint),
      logged (EvTTS "pyttsx3" wav_path) w))
  /\ match selected_voice env voice_hint with
     | Some id =>
         exists hint pre name post,
           voice_hint = Some hint /\ hint <> ""
           /\ pyttsx3_voices env = (pre ++ (id, name) :: post)%list
           /\ voice_matches env hint (id, name) = true
           /\ Forall (fun v => voice_matches env hint v = false) pre
     | None =>
         voice_hint = None \/ voice_hint = Some ""
         \/ exists hint,
              voice_hint = Some hint
              /\ Forall (fun v => voice_matches env hint v = false) (pyttsx3_voices env)
     end.
Proof.
  split.
  - intros I. unfold tts_pyttsx3. rewrite I. reflexivity.
  - unfold selected_voice. destruct voice_hint as [[| c r] |]; simpl; auto.
    pose proof (pick_voice_spec env (String c r) (pyttsx3_voices env)) as P.
    destruct (pick_voice env (String c r) (pyttsx3_voices env)) as [id |].
    + destruct P as (pre & name & post & V & Mv & F).
      exists (String c r), pre, name, post. repeat split; auto.
    + right. right. eauto.
Qed.

Lemma selected_voice_first_match_witness :
  tts_pyttsx3 offline_env (PStr "Once upon a time.") "outputs/mina/scene_01.wav"
    (Some "Zira") world0
  = (Ok tt, logged (EvTTS "pyttsx3" "outputs/mina/scene_01.wav") world0).
Proof.
  exact (proj1 (selected_voice_first_match offline_env (PStr "Once upon a time.")
                  "outputs/mina/scene_01.wav" (Some "Zira") world0) eq_refl).
Defined.

(** X18. An engine run that ends with a non-zero return code is an error that
    carries the program's stderr text; eSpeak and Piper succeed exactly
    when the program could be run and returned 0. Either way the run is in
    the log. *)
Theorem tts_process_exit_code `{PyRandom} (env : Env) (text : pyval) (wav_path : string)
    (w : World) :
  let logged engine := mkWorld _ (w_rng w) (w_dirs w) (w_trace w ++ [EvTTS engine wav_path]) in
  (forall code err,
     espeak_run env [PStr "espeak"; PStr "-w"; PStr wav_path; text] = Ok (code, err) ->
     tts_espeak env text wav_path None w
     = (if (code =? 0)%Z then Ok tt else Raise (RuntimeError ("eSpeak failed: " ++ err)),
        logged "espeak"))
  /\ (forall exe voice code err,
        PIPER_PATH env = Some exe -> PIPER_VOICE env = Some voice ->
        exe <> "" -> voice <> "" ->
        piper_run env exe voice text wav_path = Ok (code, err) ->
        tts_piper env text wav_path None w
        = (if (code =? 0)%Z then Ok tt else Raise (RuntimeError ("Piper failed: " ++ err)),
           logged "piper")).
Proof.
  intros logged. split.
  - intros code err R. unfold tts_espeak. simpl.
    unfold bind, emit, lift. rewrite R. simpl.
    destruct (code =? 0)%Z; reflexivity.
  - intros exe voice code err Pe Pv Ne Nv R. unfold tts_piper. rewrite Pe, Pv.
    destruct exe as [| c1 r1]; [contradiction |].
    destruct voice as [| c2 r2]; [contradiction |]. simpl.
    unfold bind, emit, lift. rewrite R. simpl.
    destruct (code =? 0)%Z; reflexivity.
Qed.

Lemma tts_process_exit_code_witness :
  tts_espeak offline_env (PStr "Once upon a time.") "outputs/mina/scene_01.wav" None world0
  = (Ok tt, mkWorld _ 0%nat ∅ [EvTTS "espeak" "outputs/mina/scene_01.wav"]).
Proof.
  exact (proj1 (tts_process_exit_code offline_env (PStr "Once upon a time.")
                  "outputs/mina/scene_01.wav" world0) 0%Z "" eq_refl).
Defined.

Lemma bind_ext `{PyRandom} {A B} (c : M A) (k1 k2 : A -> M B) (w : World) :
  (forall a w0, k1 a w0 = k2 a w0) -> bind c k1 w = bind c k2 w.
Proof. intros E. unfold bind. destruct (c w) as [[a | e] w1]; [apply E | reflexivity]. Qed.

Lemma for_each_ext `{PyRandom} {A B} (f g : A -> M B) (l : list A) (w : World) :
  (forall a w0, f a w0 = g a w0) -> for_each f l w = for_each g l w.
Proof.
  intros E. revert w. induction l as [| a l IH]; intros w; [reflexivity |].
  simpl. unfold bind. rewrite E. destruct (g a w) as [[b | e] w1]; [| reflexivity].
  rewrite IH. reflexivity.
Qed.

(** X19. The voice hint of the form reaches pyttsx3 only: with Piper or eSpeak
    as narration engine, [build_video] does the same whatever the hint. *)
Theorem voice_hint_ignored_by_piper_and_espeak `{PyRandom} (env : Env)
    (scenes : list Scene) (resolution : Z * Z) (out_path : string)
    (hint1 hint2 : option string) (tts_engine : string) (w : World) :
  tts_engine = "Piper (offline)" \/ tts_engine = "eSpeak (offline)" ->
  build_video env scenes resolution out_path hint1 tts_engine w
  = build_video env scenes resolution out_path hint2 tts_engine w.
Proof.
  intros E.
  assert (S : forall text wav w0,
             synthesize env text wav tts_engine hint1 w0
             = synthesize env text wav tts_engine hint2 w0).
  { intros text wav w0. unfold synthesize. destruct E as [-> | ->]; reflexivity. }
  assert (C : forall isc w0,
             scene_clip env resolution (video_workdir env out_path) hint1 tts_engine isc w0
             = scene_clip env resolution (video_workdir env out_path) hint2 tts_engine isc w0).
  { intros [i sc] w0. unfold scene_clip.
    repeat (apply bind_ext; intros ? ?).
    unfold bind. rewrite S. reflexivity. }
  unfold build_video. unfold bind at 1 4.
  replace (build_timeline env scenes resolution out_path hint1 tts_engine w)
    with (build_timeline env scenes resolution out_path hint2 tts_engine w);
    [reflexivity |].
  unfold build_timeline. apply bind_ext. intros [] w1.
  unfold bind. rewrite (for_each_ext _ _ _ _ C). reflexivity.
Qed.

Lemma voice_hint_ignored_by_piper_and_espeak_witness :
  build_video offline_env demo_scenes INSTAGRAM_RES "outputs/mina_IG_9x16.mp4"
    (Some "Zira") "eSpeak (offline)" world0
  = build_video offline_env demo_scenes INSTAGRAM_RES "outputs/mina_IG_9x16.mp4"
      None "eSpeak (offline)" world0.
Proof.
  exact (voice_hint_ignored_by_piper_and_espeak offline_env demo_scenes INSTAGRAM_RES
           "outputs/mina_IG_9x16.mp4" (Some "Zira") None "eSpeak (offline)" world0
           (or_intror eq_refl)).
Defined.

(** ** Video assembly, further *)

(** X20. The zoom never shrinks the picture and never enlarges it by more than
    5%: over a clip of positive duration the scale stays between 1 and
    1.05. On a clip of zero duration the scale cannot be computed: the
    division raises. *)
Theorem zoom_scale_bounds (d t : Q) :
  ((0 < d)%Q -> (0 <= t <= d)%Q ->
     exists v, zoom_scale d t = Ok v /\ (1 <= v <= 105 # 100)%Q)
  /\ ((d == 0)%Q -> zoom_scale d t = Raise ZeroDivisionError).
Proof.
  unfold zoom_scale, py_fdiv. split.
  - intros P [T0 T1].
    destruct (Qeq_bool d 0) eqn:Z; [apply Qeq_bool_iff in Z; lra |].
    eexists. split; [reflexivity |].
    assert (F : (0 <= t / d <= 1)%Q).
    { split.
      - apply Qle_shift_div_l; [exact P | lra].
      - apply Qle_shift_div_r; [exact P | lra]. }
    revert F. generalize (t / d)%Q. intros x F. unfold zoom_end. lra.
  - intros Z. apply Qeq_bool_iff in Z. rewrite Z. reflexivity.
Qed.

Lemma zoom_scale_bounds_witness :
  (exists v, zoom_scale 6 3 = Ok v /\ (1 <= v <= 105 # 100)%Q)
  /\ zoom_scale 0 3 = Raise ZeroDivisionError.
Proof.
  split.
  - apply (proj1 (zoom_scale_bounds 6 3)); [reflexivity |].
    split; vm_compute; discriminate.
  - apply (proj2 (zoom_scale_bounds 0 3)). reflexivity.
Defined.

(** X21. Without scenes there is no video: [build_video] on an empty scene
    list raises (from the concatenation, if not before) and leaves the log
    as it was, so nothing has been rendered or written. *)
Theorem build_video_without_scenes `{PyRandom} (env : Env) (resolution : Z * Z)
    (out_path : string) (voice_hint : option string) (tts_engine : string) (w : World) :
  exists e w',
    build_video env [] resolution out_path voice_hint tts_engine w = (Raise e, w')
    /\ w_trace w' = w_trace w.
Proof.
  unfold build_video, build_timeline. unfold bind at 1. unfold bind at 1.
  assert (T' : w_trace (snd (os_makedirs env (video_workdir env out_path) true w))
               = w_trace w).
  { unfold os_makedirs.
    repeat match goal with |- context [if ?b then _ else _] => destruct b end;
      reflexivity. }
  destruct (os_makedirs env (video_workdir env out_path) true w) as [[[] | e] w1];
    simpl in T'; eauto.
Qed.

(** X22. [build_video] never returns a path. Whatever the scenes, the
    target, the narration engine and the machine, it raises: on no scene
    from the concatenation (if not before), and on a first scene from the
    image or narration steps or, once these have gone through, from line
    298, where the [AttributeError] of the missing [set_duration] ends the
    run with the first scene's picture and narration on disk and nothing
    else done. *)
Theorem build_video_never_returns `{PyRandom} (env : Env) (scenes : list Scene)
    (resolution : Z * Z) (out_path : string) (voice_hint : option string)
    (tts_engine : string) (w : World) :
  (exists e w',
     build_video env scenes resolution out_path voice_hint tts_engine w = (Raise e, w'))
  /\ (forall sc rest w0 img w1 w2 d,
        let workdir := video_workdir env out_path in
        scenes = sc :: rest ->
        os_makedirs env workdir true w = (Ok tt, w0) ->
        make_image env (prompt sc) resolution w0 = (Ok img, w1) ->
        image_save env (scene_png workdir 1) = Ok tt ->
        synthesize env (text sc) (scene_wav workdir 1) tts_engine voice_hint
          (logged (EvSaved (scene_png workdir 1)) w1) = (Ok tt, w2) ->
        audio_file_duration env (scene_wav workdir 1) = Ok d ->
        build_video env scenes resolution out_path voice_hint tts_engine w
        = (Raise AttributeError, w2)).
Proof.
  split; [apply build_video_raises |].
  intros sc rest w0 img w1 w2 d workdir -> Mk I S N D.
  unfold build_video, build_timeline. fold workdir.
  unfold bind at 1. unfold bind at 1. rewrite Mk.
  cbn [enumerate for_each]. unfold bind at 1. unfold bind at 1.
  rewrite (scene_clip_attribute_error env resolution workdir voice_hint tts_engine
             1 sc w0 img w1 w2 d I S N D).
  reflexivity.
Qed.

Lemma build_video_never_returns_witness :
  exists w2,
    build_video offline_env demo_scenes INSTAGRAM_RES "outputs/mina_IG_9x16.mp4"
      None "eSpeak (offline)" world0
    = (Raise AttributeError, w2)
    /\ w_trace w2 = [ EvSaved "outputs/mina_ig_9x16/scene_01.png";
                      EvTTS "espeak" "outputs/mina_ig_9x16/scene_01.wav" ].
Proof.
  eexists. split.
  - refine (proj2 (build_video_never_returns offline_env demo_scenes INSTAGRAM_RES
                     "outputs/mina_IG_9x16.mp4" None "eSpeak (offline)" world0)
              _ _ _ _ _ _ 6%Q eq_refl _ _ _ _ _).
    + vm_compute. reflexivity.
    + vm_compute. reflexivity.
    + reflexivity.
    + vm_compute. reflexivity.
    + reflexivity.
  - reflexivity.
Defined.

(** X23. So the render loop shows no video: whatever the story and the
    targets, it returns the list of results it started with and reports
    every target, in order, as failed. *)
Theorem render_loop_shows_no_video `{PyRandom} (env : Env) (scenes : list Scene)
    (targets : list export_target) (voice_hint : option string) (tts_engine : string)
    (results : list string) (w : World) :
  exists w' ext,
    ui_render env scenes targets voice_hint tts_engine results w = (Ok results, w')
    /\ w_trace w' = (w_trace w ++ ext)%list
    /\ reports ext = map (fun t => (snd t, false)) targets.
Proof.
  revert w. induction targets as [| [res path] rest IH]; intros w.
  - exists w, []. rewrite app_nil_r. repeat split.
  - cbn [ui_render]. unfold bind at 1. unfold emit at 1.
    set (w1 := mkWorld _ _ _ _).
    unfold bind at 1. unfold try_except. unfold bind at 1.
    destruct (silent_build_video env scenes res path voice_hint tts_engine w1)
      as (e1 & T1 & F1).
    destruct (build_video_raises env scenes res path voice_hint tts_engine w1)
      as (e & w2 & B).
    rewrite B in T1 |- *. simpl in T1.
    unfold bind at 1. unfold emit at 1. unfold ret at 1.
    set (w3 := mkWorld _ _ _ _).
    destruct (IH w3) as (w' & ext & E & T & R).
    exists w', ([EvInfo (rendering_message (res, path))] ++ e1
                ++ [EvError path e] ++ ext)%list.
    split; [exact E |]. split.
    + rewrite T. subst w3 w1. simpl. rewrite T1. simpl.
      rewrite <- !app_assoc. reflexivity.
    + rewrite !reports_app, (reports_silent e1 F1), R. reflexivity.
Qed.

(** ** The export targets of the form *)

Lemma string_app_inv_head (a b c : string) : a ++ b = a ++ c -> b = c.
Proof.
  induction a as [| x a IH]; [auto |].
  intros E. apply IH. injection E as E. exact E.
Qed.

(** X25. Choosing "Both" gives the same two targets as ticking both formats,
    whatever else is ticked: the Instagram target (1080x1920) first, then
    the YouTube target (1920x1080), never one twice, and the two videos go
    to different files named after the slug of the story title. *)
Theorem ui_targets_both (env : Env) (platforms : list string) (story_title : string) :
  str_in_list "Both" platforms = true
  \/ (str_in_list "Instagram Reels (9:16)" platforms = true
      /\ str_in_list "YouTube (16:9)" platforms = true) ->
  let slug := slugify env story_title in
  ui_targets env platforms (PStr story_title)
  = Ok [ ((1080, 1920)%Z, "outputs/" ++ slug ++ "_IG_9x16.mp4");
         ((1920, 1080)%Z, "outputs/" ++ slug ++ "_YT_16x9.mp4") ]
  /\ "outputs/" ++ slug ++ "_IG_9x16.mp4" <> "outputs/" ++ slug ++ "_YT_16x9.mp4".
Proof.
  intros S slug. split.
  - unfold ui_targets. simpl.
    destruct S as [-> | [-> ->]]; simpl; rewrite ?orb_true_r; reflexivity.
  - intros E. apply string_app_inv_head, string_app_inv_head in E. discriminate.
Qed.

Lemma ui_targets_both_witness :
  ui_targets offline_env ["YouTube (16:9)"; "Both"] (PStr "Mina")
  = Ok [ ((1080, 1920)%Z, "outputs/mina_IG_9x16.mp4");
         ((1920, 1080)%Z, "outputs/mina_YT_16x9.mp4") ].
Proof.
  exact (proj1 (ui_targets_both offline_env ["YouTube (16:9)"; "Both"] "Mina"
                  (or_introl eq_refl))).
Defined.

(** X26. With no format ticked there is nothing to render, and the title is
    not even looked at; with one format ticked there is that one target. *)
Theorem ui_targets_single (env : Env) (platforms : list string) (story_title : pyval) :
  str_in_list "Both" platforms = false ->
  (str_in_list "Instagram Reels (9:16)" platforms = false ->
   str_in_list "YouTube (16:9)" platforms = false ->
   ui_targets env platforms story_title = Ok [])
  /\ (forall t, story_title = PStr t ->
        str_in_list "Instagram Reels (9:16)" platforms = true ->
        str_in_list "YouTube (16:9)" platforms = false ->
        ui_targets env platforms story_title
        = Ok [ (INSTAGRAM_RES, target_path (slugify env t) "_IG_9x16.mp4") ])
  /\ (forall t, story_title = PStr t ->
        str_in_list "Instagram Reels (9:16)" platforms = false ->
        str_in_list "YouTube (16:9)" platforms = true ->
        ui_targets env platforms story_title
        = Ok [ (YOUTUBE_RES, target_path (slugify env t) "_YT_16x9.mp4") ]).
Proof.
  intros B. unfold ui_targets. rewrite B. simpl. split; [| split].
  - intros -> ->. reflexivity.
  - intros t -> -> ->. reflexivity.
  - intros t -> -> ->. reflexivity.
Qed.

Lemma ui_targets_single_witness :
  ui_targets offline_env [] PNone = Ok []
  /\ ui_targets offline_env ["YouTube (16:9)"] (PStr "Mina")
     = Ok [ (YOUTUBE_RES, "outputs/mina_YT_16x9.mp4") ].
Proof.
  split.
  - exact (proj1 (ui_targets_single offline_env [] PNone eq_refl) eq_refl eq_refl).
  - exact (proj2 (proj2 (ui_targets_single offline_env ["YouTube (16:9)"] (PStr "Mina")
                           eq_refl)) "Mina" eq_refl eq_refl eq_refl).
Defined.

(** ** Failures that reach the user *)

Section Unavailable.
Context `{PyRandom}.
Variable env : Env.

Lemma synthesize_unavailable text out_wav tts_engine voice_hint w :
  engine_unavailable env tts_engine ->
  exists e w', synthesize env text out_wav tts_engine voice_hint w = (Raise e, w')
               /\ w_trace w' = w_trace w.
Proof.
  intros U. unfold synthesize, bind.
  assert (T : w_trace (snd (os_makedirs env (os_path_dirname out_wav) true w)) = w_trace w).
  { unfold os_makedirs.
    repeat match goal with |- context [if ?b then _ else _] => destruct b end;
      reflexivity. }
  destruct (os_makedirs env (os_path_dirname out_wav) true w) as [[[] | e] w1];
    simpl in T; [| eauto].
  destruct U as [[-> [P | P]] | (N1 & N2 & P)].
  - simpl. unfold tts_piper. rewrite P. simpl. unfold raise. eauto.
  - simpl. unfold tts_piper.
    change (truthy (if truthy None then None else PIPER_VOICE env))
      with (truthy (PIPER_VOICE env)).
    rewrite P, orb_true_r. unfold raise. eauto.
  - destruct (String.eqb_spec tts_engine "Piper (offline)"); [contradiction |].
    destruct (String.eqb_spec tts_engine "eSpeak (offline)"); [contradiction |].
    unfold tts_pyttsx3. rewrite P. simpl. unfold raise. eauto.
Qed.

Lemma build_video_unavailable sc scenes resolution out_path voice_hint tts_engine w :
  engine_unavailable env tts_engine ->
  exists e w',
    build_video env (sc :: scenes) resolution out_path voice_hint tts_engine w = (Raise e, w').
Proof.
  intros U. unfold build_video, build_timeline.
  unfold bind at 1. unfold bind at 1.
  destruct (os_makedirs env _ true w) as [[[] | e] w1]; [| eauto].
  unfold bind at 1. cbn [enumerate for_each]. unfold bind at 1.
  unfold scene_clip at 1. unfold bind at 1.
  destruct (make_image env (prompt sc) resolution w1) as [[img | e] w2]; [| eauto].
  unfold bind at 1. unfold emit at 1. unfold bind at 1. unfold lift at 1.
  destruct (image_save env _) as [[] | e]; [| eauto].
  unfold bind at 1.
  match goal with |- context [synthesize env ?t ?p tts_engine voice_hint ?w0] =>
    destruct (synthesize_unavailable t p tts_engine voice_hint w0 U) as (e & w3 & -> & _)
  end.
  eauto.
Qed.

(** X24. With a narration engine that cannot be used on the machine, no target
    yields a video: for a story of at least one scene the render loop
    returns, without raising, the very list of results it started with. *)
Theorem unavailable_engine_fails_every_target (sc : Scene) (scenes : list Scene)
    (targets : list export_target) (voice_hint : option string) (tts_engine : string)
    (results : list string) (w : World) :
  engine_unavailable env tts_engine ->
  exists w',
    ui_render env (sc :: scenes) targets voice_hint tts_engine results w = (Ok results, w').
Proof.
  intros U. revert w. induction targets as [| [res path] rest IH]; intros w.
  - eexists. reflexivity.
  - cbn [ui_render]. unfold bind at 1. unfold emit at 1.
    unfold bind at 1. unfold try_except. unfold bind at 1.
    match goal with |- context [build_video env ?s ?r ?p voice_hint tts_engine ?w0] =>
      destruct (build_video_unavailable sc scenes r p voice_hint tts_engine w0 U)
        as (e & w1 & ->)
    end.
    unfold bind at 1. unfold emit at 1. unfold ret at 1. apply IH.
Qed.

(** X14. When the image service answers, its image is used as it is: with the
    service configured and the response holding an image that decodes,
    [make_image] returns that image, whatever its size, after the one
    request, and the fallback is not drawn. *)
Theorem make_image_returns_service_image (prompt : pyval) (width height : Z)
    (w : World) api r data images v img :
  SD_API env = Some api -> api <> "" ->
  requests_installed env = true ->
  (forall payload, http_post env (api ++ "/sdapi/v1/txt2img") payload = Ok r) ->
  status_ok r = true ->
  body_json r = Ok data ->
  py_item data "images" = Ok images ->
  py_first images = Ok v ->
  image_decode env v = Ok img ->
  make_image env prompt (width, height) w
  = (Ok img, posted (api ++ "/sdapi/v1/txt2img") w).
Proof.
  intros A N I P S B Im F D.
  unfold make_image, try_except, sd_txt2img. rewrite A, I.
  destruct api as [| c a]; [contradiction |]. simpl.
  unfold requests_post, bind, emit, lift, raise_for_status.
  rewrite P, S, B, Im, F, D. reflexivity.
Qed.
End Unavailable.

Lemma unavailable_engine_fails_every_target_witness :
  exists w',
    ui_render offline_env demo_scenes
      [ (INSTAGRAM_RES, "outputs/mina_IG_9x16.mp4"); (YOUTUBE_RES, "outputs/mina_YT_16x9.mp4") ]
      None "Piper (offline)" [] world0
    = (Ok [], w').
Proof.
  refine (unavailable_engine_fails_every_target offline_env _ _ _ None "Piper (offline)"
            [] world0 _).
  left. split; [reflexivity | left; reflexivity].
Defined.

Lemma make_image_returns_service_image_witness :
  make_image sd_env (PStr "a kite, a meadow") INSTAGRAM_RES world0
  = (Ok sd_picture, posted "http://127.0.0.1:7860/sdapi/v1/txt2img" world0).
Proof.
  refine (make_image_returns_service_image sd_env (PStr "a kite, a meadow") 1080 1920 world0
            "http://127.0.0.1:7860" _ _ (PList [PStr "iVBORw0KGgo="]) (PStr "iVBORw0KGgo=")
            sd_picture eq_refl _ eq_refl (fun _ => eq_refl) eq_refl eq_refl _ eq_refl eq_refl).
  - discriminate.
  - vm_compute. reflexivity.
Defined.
